(** * Idempotency-key storage (idempotency_key/storage.py)

    A shallow embedding of the three classes of [storage.py]:
    [CachedHttpResponse], [MemoryKeyStorage] and [CacheKeyStorage], and the
    properties of the record life cycle (absent, reserved, completed) proved
    on it.

    Conventions of the embedding.
    - A Python object handed to the store is a [pyobject]: [None], an
      [HttpResponse] instance, or any other object.
    - [time.time()] is an explicit argument [now] of every method that reads
      the clock; a clock reading is an integer number of ticks, and
      [mtime + ttl < now] is the only arithmetic done on it. This exact
      clock carries the properties that do not depend on where the sum
      falls. The classes are then given again with binary64 clock readings,
      as [time.time()] returns them, and with the records a cache backend
      may drop on its own; the properties about the deadline of a
      reservation, and about what can be raised, are stated there.
    - A method that may raise returns a [result]; the state it mutates
      ([self], or Django's process-wide [caches]) is passed in and returned.
    - A Python [dict] is a [gmap]; the inner dict bound to [the_cache] is an
      alias of the one held by the outer table, so a mutation of it is
      written back under its namespace. *)

From Stdlib Require Import ZArith String List Lia SpecFloat QArith.
From stdpp Require Import gmap strings.

Local Open Scope Z_scope.

(** ** Python values, exceptions and results *)

Inductive pyobject : Type :=
| PyNone
| HttpResponse (status_code : Z) (content : string)
| PyObject (repr : string).

(** [isinstance(value, HttpResponse)] *)
Definition isinstance_HttpResponse (value : pyobject) : bool :=
  match value with
  | HttpResponse _ _ => true
  | _ => false
  end.

(** [value is None] *)
Definition is_None (value : pyobject) : bool :=
  match value with
  | PyNone => true
  | _ => false
  end.

Inductive exn : Type :=
| ValueError (msg : string)
| KeyError (key : string)
| TypeError
| AttributeError
| InvalidCacheBackendError (alias : string)
| OverflowError.

Inductive result (A : Type) : Type :=
| Ok (a : A)
| Raise (e : exn).

Arguments Ok {A} a.
Arguments Raise {A} e.

(** An exception propagates: the rest of the method is skipped. The
    notation [x ← r; k] is stdpp's, for this instance. *)
#[global] Instance result_bind : MBind result :=
  fun A B (f : A -> result B) (r : result A) =>
    match r with
    | Ok a => f a
    | Raise e => Raise e
    end.

Definition raises {A : Type} (r : result A) : Prop :=
  match r with
  | Ok _ => False
  | Raise _ => True
  end.

(** ** class CachedHttpResponse *)

Module CachedHttpResponse.

Record t : Type := mk { _response : pyobject; _mtime : Z }.

(** [__init__(self, value)]: no check on [value]; the clock is read once. *)
Definition init (now : Z) (value : pyobject) : t :=
  {| _response := value; _mtime := now |}.

(** the [response_and_mtime] property *)
Definition response_and_mtime (self : t) : pyobject * Z :=
  (_response self, _mtime self).

(** the [response_and_mtime] setter *)
Definition set_response_and_mtime (now : Z) (self : t) (value : pyobject)
  : result t :=
  if negb (isinstance_HttpResponse value)
  then Raise (ValueError "The value must be an instance of HttpResponse")
  else Ok {| _response := value; _mtime := now |}.

End CachedHttpResponse.

Abbreviation record := CachedHttpResponse.t.

(** ** Python dict primitives on [gmap string record] *)

(** [key in d] *)
Definition dict_contains (d : gmap string record) (key : string) : bool :=
  match d !! key with
  | Some _ => true
  | None => false
  end.

(** [d[key]] *)
Definition dict_getitem (d : gmap string record) (key : string)
  : result record :=
  match d !! key with
  | Some v => Ok v
  | None => Raise (KeyError key)
  end.

(** [del d[key]] *)
Definition dict_delitem (d : gmap string record) (key : string)
  : result (gmap string record) :=
  match d !! key with
  | Some _ => Ok (delete key d)
  | None => Raise (KeyError key)
  end.

(** truth value of a dict: [len(d) != 0] *)
Definition dict_truthy (d : gmap string record) : bool :=
  negb (Nat.eqb (size d) 0).

(** The test of both [retrieve_data] methods:
    [response is None and mtime + self.ttl < time.time()]. *)
Definition expired (now ttl : Z) (c : record) : bool :=
  let '(response, mtime) := CachedHttpResponse.response_and_mtime c in
  is_None response && (mtime + ttl <? now).

(** ** class MemoryKeyStorage *)

Module MemoryKeyStorage.

(** What a namespace of [idempotency_key_cache_data] may be bound to, as
    far as [retrieve_data] and [delete_data] test it: [None] or a dict. *)
Inductive slot : Type :=
| SlotNone
| SlotDict (d : gmap string record).

Record t : Type :=
  mk { ttl : Z; idempotency_key_cache_data : gmap string slot }.

(** [__init__(self, ttl)]: the table is [defaultdict(dict)], empty. *)
Definition init (ttl : Z) : t :=
  {| ttl := ttl; idempotency_key_cache_data := ∅ |}.

(** [defaultdict(dict).__getitem__]: a missing key is bound to a fresh
    empty dict, which is returned; the table is mutated in that case. *)
Definition defaultdict_getitem (dd : gmap string slot) (key : string)
  : slot * gmap string slot :=
  match dd !! key with
  | Some v => (v, dd)
  | None => (SlotDict ∅, <[key := SlotDict ∅]> dd)
  end.

Definition store_data (now : Z) (self : t)
    (cache_name encoded_key : string) (response : pyobject) : result t :=
  let cached_response := CachedHttpResponse.init now response in
  let '(the_cache, data) :=
    defaultdict_getitem (idempotency_key_cache_data self) cache_name in
  match the_cache with
  | SlotNone => Raise TypeError
  | SlotDict d =>
      Ok (mk (ttl self)
            (<[cache_name := SlotDict (<[encoded_key := cached_response]> d)]>
               data))
  end.

Definition retrieve_data (now : Z) (self : t)
    (cache_name encoded_key : string) : result ((bool * pyobject) * t) :=
  let '(the_cache, data) :=
    defaultdict_getitem (idempotency_key_cache_data self) cache_name in
  match the_cache with
  | SlotNone => Ok ((false, PyNone), mk (ttl self) data)
  | SlotDict d =>
      if negb (dict_contains d encoded_key)
      then Ok ((false, PyNone), mk (ttl self) data)
      else
        c ← dict_getitem d encoded_key;
        let '(response, mtime) := CachedHttpResponse.response_and_mtime c in
        if is_None response && (mtime + ttl self <? now)
        then
          d' ← dict_delitem d encoded_key;
          Ok ((false, PyNone),
              mk (ttl self) (<[cache_name := SlotDict d']> data))
        else Ok ((true, response), mk (ttl self) data)
  end.

Definition delete_data (self : t) (cache_name encoded_key : string)
  : result t :=
  let '(the_cache, data) :=
    defaultdict_getitem (idempotency_key_cache_data self) cache_name in
  match the_cache with
  | SlotNone => Ok (mk (ttl self) data)
  | SlotDict d =>
      if dict_truthy d && dict_contains d encoded_key
      then
        d' ← dict_delitem d encoded_key;
        Ok (mk (ttl self) (<[cache_name := SlotDict d']> data))
      else Ok (mk (ttl self) data)
  end.

(** [validate_storage(name)]: [pass]. *)
Definition validate_storage (name : string) : result unit := Ok tt.

(** The record stored under [(cache_name, encoded_key)], if any. *)
Definition record_at (self : t) (cache_name encoded_key : string)
  : option record :=
  match idempotency_key_cache_data self !! cache_name with
  | Some (SlotDict d) => d !! encoded_key
  | _ => None
  end.

End MemoryKeyStorage.

(** ** Django's cache framework, as [CacheKeyStorage] uses it *)

(** [django.core.cache.caches] is not part of this repository. The registry
    is a finite map from the configured aliases to the content of each
    cache. The backend's own eviction policy is left out: a cache keeps what
    was [set] until it is [delete]d, and a stored value comes back with its
    [(payload, writtenAt)] pair intact (section 6 of the specification). *)
Module Django.

Abbreviation cache := (gmap string record).
Abbreviation registry := (gmap string (gmap string record)).

(** Modelled from the spec: [caches[alias]], missing from the repository.
    Section 4.3 has the named instance resolved from configuration, and the
    comment of [CacheKeyStorage.validate_storage] says "If the cache is not
    found then an InvalidCacheBackendError is raised". *)
Definition caches_getitem (caches : registry) (alias : string)
  : result cache :=
  match caches !! alias with
  | Some c => Ok c
  | None => Raise (InvalidCacheBackendError alias)
  end.

(** Modelled from the spec: [key in cache], missing from the repository;
    true exactly when a record is stored under [key]. *)
Definition contains (c : cache) (key : string) : bool :=
  match c !! key with
  | Some _ => true
  | None => false
  end.

(** Modelled from the spec: [cache.get(key)], missing from the repository;
    the stored record, or [None] when there is none. *)
Definition get (c : cache) (key : string) : option record := c !! key.

(** Modelled from the spec: [cache.set(key, value)], missing from the
    repository; overwrites any record stored under [key]. *)
Definition set (c : cache) (key : string) (value : record) : cache :=
  <[key := value]> c.

(** Modelled from the spec: [cache.delete(key)], missing from the
    repository; no error when nothing is stored under [key]. *)
Definition delete (c : cache) (key : string) : cache := base.delete key c.

End Django.

(** ** class CacheKeyStorage *)

Module CacheKeyStorage.

Record t : Type := mk { ttl : Z }.

Definition init (ttl : Z) : t := {| ttl := ttl |}.

(** Every method evaluates [caches[cache_name]] afresh at each use; a
    [set] or [delete] on that cache object is a mutation of the registry's
    entry. *)
Definition store_data (now : Z) (self : t) (caches : Django.registry)
    (cache_name encoded_key : string) (response : pyobject)
  : result Django.registry :=
  let cached_response := CachedHttpResponse.init now response in
  c ← Django.caches_getitem caches cache_name;
  Ok (<[cache_name := Django.set c encoded_key cached_response]> caches).

Definition retrieve_data (now : Z) (self : t) (caches : Django.registry)
    (cache_name encoded_key : string)
  : result ((bool * pyobject) * Django.registry) :=
  c ← Django.caches_getitem caches cache_name;
  if negb (Django.contains c encoded_key)
  then Ok ((false, PyNone), caches)
  else
    c1 ← Django.caches_getitem caches cache_name;
    match Django.get c1 encoded_key with
    | None => Raise AttributeError
    | Some cached =>
        let '(response, mtime) :=
          CachedHttpResponse.response_and_mtime cached in
        if is_None response && (mtime + ttl self <? now)
        then
          c2 ← Django.caches_getitem caches cache_name;
          Ok ((false, PyNone),
              <[cache_name := Django.delete c2 encoded_key]> caches)
        else Ok ((true, response), caches)
    end.

Definition delete_data (self : t) (caches : Django.registry)
    (cache_name encoded_key : string) : result Django.registry :=
  c ← Django.caches_getitem caches cache_name;
  if Django.contains c encoded_key
  then
    c1 ← Django.caches_getitem caches cache_name;
    Ok (<[cache_name := Django.delete c1 encoded_key]> caches)
  else Ok caches.

(** [validate_storage(name)]: the body is the expression [caches[name]]. *)
Definition validate_storage (caches : Django.registry) (name : string)
  : result unit :=
  _ ← Django.caches_getitem caches name;
  Ok tt.

Definition record_at (caches : Django.registry)
    (cache_name encoded_key : string) : option record :=
  match caches !! cache_name with
  | Some c => c !! encoded_key
  | None => None
  end.

End CacheKeyStorage.

(** ** Sequences of calls *)

(** One call of the storage interface, with the clock reading it gets. *)
Inductive op : Type :=
| StoreData (now : Z) (cache_name encoded_key : string) (response : pyobject)
| RetrieveData (now : Z) (cache_name encoded_key : string)
| DeleteData (cache_name encoded_key : string).





Definition memory_step (o : op) (s : MemoryKeyStorage.t)
  : result MemoryKeyStorage.t :=
  match o with
  | StoreData now ns k v => MemoryKeyStorage.store_data now s ns k v
  | RetrieveData now ns k =>
      r ← MemoryKeyStorage.retrieve_data now s ns k; Ok (snd r)
  | DeleteData ns k => MemoryKeyStorage.delete_data s ns k
  end.



(** The states a [MemoryKeyStorage(ttl)] object can be in. *)
Inductive reachable (ttl : Z) : MemoryKeyStorage.t -> Prop :=
| reachable_init : reachable ttl (MemoryKeyStorage.init ttl)
| reachable_step o s s' :
    reachable ttl s -> memory_step o s = Ok s' -> reachable ttl s'.

(** No namespace is bound to [None]. *)
Definition all_dicts (s : MemoryKeyStorage.t) : Prop :=
  forall ns, MemoryKeyStorage.idempotency_key_cache_data s !! ns
             <> Some MemoryKeyStorage.SlotNone.

(** ** The life cycle of one record, seen from outside *)

(** What a read at time [now] leaves of a record: a reservation older than
    [ttl] is dropped, anything else stays. *)
Definition purge (now ttl : Z) (r : option record) : option record :=
  match r with
  | Some c => if expired now ttl c then None else Some c
  | None => None
  end.

(** What [retrieve_data] answers when the record is [r]. *)
Definition answer (now ttl : Z) (r : option record) : bool * pyobject :=
  match purge now ttl r with
  | Some c => (true, CachedHttpResponse._response c)
  | None => (false, PyNone)
  end.

(** The effect of one call on the record of [(ns, k)]. *)
Definition op_effect (ttl : Z) (o : op) (ns k : string) (r : option record)
  : option record :=
  match o with
  | StoreData now ns' k' v =>
      if decide (ns' = ns /\ k' = k)
      then Some (CachedHttpResponse.init now v) else r
  | RetrieveData now ns' k' =>
      if decide (ns' = ns /\ k' = k) then purge now ttl r else r
  | DeleteData ns' k' =>
      if decide (ns' = ns /\ k' = k) then None else r
  end.



(** ** Tables and reads, in closed form *)

(** The dict a namespace stands for in the table of a [MemoryKeyStorage]:
    the one it is bound to, the empty one when it was never seen. *)
Definition table_of (data : gmap string MemoryKeyStorage.slot) (ns : string)
  : gmap string record :=
  match data !! ns with
  | Some (MemoryKeyStorage.SlotDict d) => d
  | _ => ∅
  end.


(** * The same classes on the clock CPython has *)

(** The definitions above read the clock on an exact integer scale. Here
    the three classes are given again with clock readings as binary64
    floats, which is what [time.time()] returns: [mtime + self.ttl] converts
    the int [ttl] to a float and adds with rounding to nearest, ties to
    even, and [<] is the comparison of floats. Everything that does not
    touch the clock is line for line as above. *)

(** ** binary64 arithmetic *)

Module Binary64.

Definition prec : Z := 53.
Definition emax : Z := 1024.

(** The conversion of an int operand to float: correctly rounded, and
    [OverflowError] ("int too large to convert to float") when the result
    would not be finite. *)
Definition of_int (n : Z) : result spec_float :=
  match binary_normalize prec emax n 0 false with
  | S754_infinity _ => Raise OverflowError
  | f => Ok f
  end.

(** [x + y] on floats; never raises, overflows to infinity. *)
Definition add (x y : spec_float) : spec_float := SFadd prec emax x y.

(** [x + n] for a float [x] and an int [n]. *)
Definition add_int (x : spec_float) (n : Z) : result spec_float :=
  y ← of_int n; Ok (add x y).

(** [x < y] on floats. *)
Definition lt (x y : spec_float) : bool := SFltb x y.

(** The rational number a finite float stands for. *)
Definition value (x : spec_float) : option Q :=
  match x with
  | S754_zero _ => Some 0%Q
  | S754_finite s m e =>
      Some (inject_Z (cond_Zopp s (Z.pos m)) * Qpower 2 e)%Q
  | _ => None
  end.

End Binary64.

(** ** class CachedHttpResponse, float clock *)

Module CachedHttpResponse64.

Record t : Type := mk { _response : pyobject; _mtime : spec_float }.

Definition init (now : spec_float) (value : pyobject) : t :=
  {| _response := value; _mtime := now |}.

Definition response_and_mtime (self : t) : pyobject * spec_float :=
  (_response self, _mtime self).

End CachedHttpResponse64.

Abbreviation record64 := CachedHttpResponse64.t.

(** ** Python dict primitives, for any type of values *)

Module PyDict.
Section dict.
Context {V : Type}.

(** [key in d] *)
Definition contains (d : gmap string V) (key : string) : bool :=
  match d !! key with
  | Some _ => true
  | None => false
  end.

(** [d[key]] *)
Definition getitem (d : gmap string V) (key : string) : result V :=
  match d !! key with
  | Some v => Ok v
  | None => Raise (KeyError key)
  end.

(** [del d[key]] *)
Definition delitem (d : gmap string V) (key : string)
  : result (gmap string V) :=
  match d !! key with
  | Some _ => Ok (delete key d)
  | None => Raise (KeyError key)
  end.

(** truth value of a dict: [len(d) != 0] *)
Definition truthy (d : gmap string V) : bool :=
  negb (Nat.eqb (size d) 0).

End dict.
End PyDict.

(** The test [response is None and mtime + self.ttl < time.time()] of both
    [retrieve_data] methods. [and] evaluates its right operand only when
    the left one is true, so the sum is formed, and the clock read, only
    for a reservation; the sum can raise. *)
Definition stale64 (now : spec_float) (ttl : Z) (c : record64) : result bool :=
  let '(response, mtime) := CachedHttpResponse64.response_and_mtime c in
  if is_None response
  then deadline ← Binary64.add_int mtime ttl; Ok (Binary64.lt deadline now)
  else Ok false.

(** ** class MemoryKeyStorage, float clock *)

Module MemoryKeyStorage64.

Inductive slot : Type :=
| SlotNone
| SlotDict (d : gmap string record64).

Record t : Type :=
  mk { ttl : Z; idempotency_key_cache_data : gmap string slot }.

Definition init (ttl : Z) : t :=
  {| ttl := ttl; idempotency_key_cache_data := ∅ |}.

Definition defaultdict_getitem (dd : gmap string slot) (key : string)
  : slot * gmap string slot :=
  match dd !! key with
  | Some v => (v, dd)
  | None => (SlotDict ∅, <[key := SlotDict ∅]> dd)
  end.

Definition store_data (now : spec_float) (self : t)
    (cache_name encoded_key : string) (response : pyobject) : result t :=
  let cached_response := CachedHttpResponse64.init now response in
  let '(the_cache, data) :=
    defaultdict_getitem (idempotency_key_cache_data self) cache_name in
  match the_cache with
  | SlotNone => Raise TypeError
  | SlotDict d =>
      Ok (mk (ttl self)
            (<[cache_name := SlotDict (<[encoded_key := cached_response]> d)]>
               data))
  end.

Definition retrieve_data (now : spec_float) (self : t)
    (cache_name encoded_key : string) : result ((bool * pyobject) * t) :=
  let '(the_cache, data) :=
    defaultdict_getitem (idempotency_key_cache_data self) cache_name in
  match the_cache with
  | SlotNone => Ok ((false, PyNone), mk (ttl self) data)
  | SlotDict d =>
      if negb (PyDict.contains d encoded_key)
      then Ok ((false, PyNone), mk (ttl self) data)
      else
        c ← PyDict.getitem d encoded_key;
        let '(response, mtime) := CachedHttpResponse64.response_and_mtime c in
        stale ← (if is_None response
                 then deadline ← Binary64.add_int mtime (ttl self);
                      Ok (Binary64.lt deadline now)
                 else Ok false);
        if (stale : bool)
        then
          d' ← PyDict.delitem d encoded_key;
          Ok ((false, PyNone),
              mk (ttl self) (<[cache_name := SlotDict d']> data))
        else Ok ((true, response), mk (ttl self) data)
  end.

Definition delete_data (self : t) (cache_name encoded_key : string)
  : result t :=
  let '(the_cache, data) :=
    defaultdict_getitem (idempotency_key_cache_data self) cache_name in
  match the_cache with
  | SlotNone => Ok (mk (ttl self) data)
  | SlotDict d =>
      if PyDict.truthy d && PyDict.contains d encoded_key
      then
        d' ← PyDict.delitem d encoded_key;
        Ok (mk (ttl self) (<[cache_name := SlotDict d']> data))
      else Ok (mk (ttl self) data)
  end.

(** The record stored under [(cache_name, encoded_key)], if any. *)
Definition record_at (self : t) (cache_name encoded_key : string)
  : option record64 :=
  match idempotency_key_cache_data self !! cache_name with
  | Some (SlotDict d) => d !! encoded_key
  | _ => None
  end.

End MemoryKeyStorage64.

(** ** Django's cache framework, float clock and eviction *)

Module Django64.

Abbreviation cache := (gmap string record64).
Abbreviation registry := (gmap string (gmap string record64)).

(** Modelled from the spec: [caches[alias]], missing from the repository;
    as [Django.caches_getitem]. *)
Definition caches_getitem (caches : registry) (alias : string)
  : result cache :=
  match caches !! alias with
  | Some c => Ok c
  | None => Raise (InvalidCacheBackendError alias)
  end.

(** Modelled from the spec: [key in cache], missing from the repository. *)
Definition contains (c : cache) (key : string) : bool :=
  match c !! key with
  | Some _ => true
  | None => false
  end.

(** Modelled from the spec: [cache.get(key)], missing from the
    repository. *)
Definition get (c : cache) (key : string) : option record64 := c !! key.

(** Modelled from the spec: [cache.set(key, value)], missing from the
    repository, when it succeeds. *)
Definition set (c : cache) (key : string) (value : record64) : cache :=
  <[key := value]> c.

(** Modelled from the spec: [cache.delete(key)], missing from the
    repository. *)
Definition delete (c : cache) (key : string) : cache := base.delete key c.

(** Modelled from the spec: what the backend does on its own between two
    calls. [store_data] passes no timeout to [set], so the default timeout
    of the backend applies, and section 4.1 has completed records live
    "until explicitly deleted or evicted by the underlying backend's own
    policy". [dropped c c'] says that [c'] is what is left of [c] after
    the backend removed any number of records: same aliases, and every
    record of [c'] is a record of [c]. While one method runs, the registry
    is taken to stay as it is. *)
Definition dropped (c c' : registry) : Prop :=
  forall alias,
    match c !! alias, c' !! alias with
    | Some d, Some d' => d' ⊆ d
    | None, None => True
    | _, _ => False
    end.

(** The backend removing the record of [(alias, key)]. *)
Definition evict (alias key : string) (c : registry) : registry :=
  match c !! alias with
  | Some d => <[alias := base.delete key d]> c
  | None => c
  end.

End Django64.

(** ** class CacheKeyStorage, float clock *)

Module CacheKeyStorage64.

Record t : Type := mk { ttl : Z }.

Definition init (ttl : Z) : t := {| ttl := ttl |}.

Definition store_data (now : spec_float) (self : t)
    (caches : Django64.registry)
    (cache_name encoded_key : string) (response : pyobject)
  : result Django64.registry :=
  let cached_response := CachedHttpResponse64.init now response in
  c ← Django64.caches_getitem caches cache_name;
  Ok (<[cache_name := Django64.set c encoded_key cached_response]> caches).

Definition retrieve_data (now : spec_float) (self : t)
    (caches : Django64.registry)
    (cache_name encoded_key : string)
  : result ((bool * pyobject) * Django64.registry) :=
  c ← Django64.caches_getitem caches cache_name;
  if negb (Django64.contains c encoded_key)
  then Ok ((false, PyNone), caches)
  else
    c1 ← Django64.caches_getitem caches cache_name;
    match Django64.get c1 encoded_key with
    | None => Raise AttributeError
    | Some cached =>
        let '(response, mtime) :=
          CachedHttpResponse64.response_and_mtime cached in
        stale ← (if is_None response
                 then deadline ← Binary64.add_int mtime (ttl self);
                      Ok (Binary64.lt deadline now)
                 else Ok false);
        if (stale : bool)
        then
          c2 ← Django64.caches_getitem caches cache_name;
          Ok ((false, PyNone),
              <[cache_name := Django64.delete c2 encoded_key]> caches)
        else Ok ((true, response), caches)
    end.

Definition delete_data (self : t) (caches : Django64.registry)
    (cache_name encoded_key : string) : result Django64.registry :=
  c ← Django64.caches_getitem caches cache_name;
  if Django64.contains c encoded_key
  then
    c1 ← Django64.caches_getitem caches cache_name;
    Ok (<[cache_name := Django64.delete c1 encoded_key]> caches)
  else Ok caches.

Definition record_at (caches : Django64.registry)
    (cache_name encoded_key : string) : option record64 :=
  match caches !! cache_name with
  | Some c => c !! encoded_key
  | None => None
  end.

End CacheKeyStorage64.

(** ** Sequences of calls, float clock *)

Inductive op64 : Type :=
| StoreData64 (now : spec_float) (cache_name encoded_key : string)
    (response : pyobject)
| RetrieveData64 (now : spec_float) (cache_name encoded_key : string)
| DeleteData64 (cache_name encoded_key : string).

Definition op64_cache_name (o : op64) : string :=
  match o with
  | StoreData64 _ ns _ _ | RetrieveData64 _ ns _ | DeleteData64 ns _ => ns
  end.

(** The call writes to, or deletes, the record of [(ns, k)] explicitly. *)
Definition writes_to64 (ns k : string) (o : op64) : Prop :=
  match o with
  | StoreData64 _ ns' k' _ | DeleteData64 ns' k' => ns' = ns /\ k' = k
  | RetrieveData64 _ _ _ => False
  end.

Definition memory_step64 (o : op64) (s : MemoryKeyStorage64.t)
  : result MemoryKeyStorage64.t :=
  match o with
  | StoreData64 now ns k v => MemoryKeyStorage64.store_data now s ns k v
  | RetrieveData64 now ns k =>
      r ← MemoryKeyStorage64.retrieve_data now s ns k; Ok (snd r)
  | DeleteData64 ns k => MemoryKeyStorage64.delete_data s ns k
  end.

Fixpoint run64 (ops : list op64) (s : MemoryKeyStorage64.t)
  : result MemoryKeyStorage64.t :=
  match ops with
  | [] => Ok s
  | o :: rest => s' ← memory_step64 o s; run64 rest s'
  end.

(** The states a [MemoryKeyStorage(ttl)] object can be in. *)
Inductive reachable64 (ttl : Z) : MemoryKeyStorage64.t -> Prop :=
| reachable64_init : reachable64 ttl (MemoryKeyStorage64.init ttl)
| reachable64_step o s s' :
    reachable64 ttl s -> memory_step64 o s = Ok s' -> reachable64 ttl s'.

(** No namespace is bound to [None]. *)
Definition all_dicts64 (s : MemoryKeyStorage64.t) : Prop :=
  forall ns, MemoryKeyStorage64.idempotency_key_cache_data s !! ns
             <> Some MemoryKeyStorage64.SlotNone.

(** The dict a namespace stands for: the one it is bound to, the empty
    one when it was never seen. *)
Definition table_of64 (data : gmap string MemoryKeyStorage64.slot)
    (ns : string) : gmap string record64 :=
  match data !! ns with
  | Some (MemoryKeyStorage64.SlotDict d) => d
  | _ => ∅
  end.

(** What a call returned to its caller, the store it left aside. *)
Definition returned {A S : Type} (r : result (A * S)) : result A :=
  x ← r; Ok (fst x).

(** What [retrieve_data] answers on the float clock when the record is
    [r]: nothing found when there is no record or when it is a stale
    reservation, the payload otherwise; the exception of the sum, if it
    raises. *)
Definition answer64 (now : spec_float) (ttl : Z) (r : option record64)
  : result (bool * pyobject) :=
  match r with
  | None => Ok (false, PyNone)
  | Some c =>
      stale ← stale64 now ttl c;
      Ok (if (stale : bool) then (false, PyNone)
          else (true, CachedHttpResponse64._response c))
  end.

(** Clock readings used in the examples: the last float before
    [2^31] seconds (19 January 2038, 03:14:08 UTC less [2^-22] s), and the
    float of an integer number of seconds. *)
Definition last_before_2038 : spec_float :=
  S754_finite false 9007199254740991 (-22).

Definition seconds (n : Z) : spec_float :=
  binary_normalize Binary64.prec Binary64.emax n 0 false.

(** ** States used in the examples *)

(** A store and a registry holding one completed record, written at
    [t = 0]. *)
Definition completed_store : MemoryKeyStorage.t :=
  MemoryKeyStorage.mk 5
    {["cache"%string :=
        MemoryKeyStorage.SlotDict
          {["key1"%string := CachedHttpResponse.mk (HttpResponse 201 "") 0]}]}.

Definition completed_registry : Django.registry :=
  {["cache"%string :=
      {["key1"%string := CachedHttpResponse.mk (HttpResponse 201 "") 0]}]}.

(** * Proofs *)

(** ** [MemoryKeyStorage]: each method against the life cycle *)

Section memory_methods.
Import MemoryKeyStorage.

Lemma record_at_insert (T : Z) (data : gmap string slot) ns d ns' k' :
  record_at (mk T (<[ns := SlotDict d]> data)) ns' k' =
  if decide (ns = ns') then d !! k' else record_at (mk T data) ns' k'.
Proof.
  unfold record_at; simpl. rewrite lookup_insert.
  destruct (decide (ns = ns')); reflexivity.
Qed.

Lemma all_dicts_insert (T : Z) (data : gmap string slot) ns d :
  all_dicts (mk T data) -> all_dicts (mk T (<[ns := SlotDict d]> data)).
Proof.
  intros Hall ns'; simpl. rewrite lookup_insert.
  destruct (decide (ns = ns')); [discriminate | apply Hall].
Qed.

Lemma all_dicts_init (T : Z) : all_dicts (init T).
Proof. intros ns; simpl. rewrite lookup_empty. discriminate. Qed.

Lemma memory_store_data_spec now s ns k v :
  all_dicts s ->
  exists s',
    store_data now s ns k v = Ok s' /\
    ttl s' = ttl s /\
    all_dicts s' /\
    forall ns' k',
      record_at s' ns' k' =
      op_effect (ttl s) (StoreData now ns k v) ns' k' (record_at s ns' k').
Proof.
  destruct s as [T data]; intros Hall.
  unfold store_data, defaultdict_getitem; simpl.
  destruct (data !! ns) as [[|d]|] eqn:E.
  - exfalso. exact (Hall ns E).
  - eexists; split; [reflexivity|]. split; [reflexivity|].
    split; [by apply all_dicts_insert|].
    intros ns' k'. rewrite record_at_insert.
    destruct (decide (ns = ns')) as [->|Hne].
    + unfold record_at; simpl. rewrite E, lookup_insert.
      destruct (decide (k = k')) as [->|Hk].
      * rewrite decide_True by done. reflexivity.
      * rewrite decide_False by tauto. reflexivity.
    + rewrite decide_False by tauto. reflexivity.
  - eexists; split; [reflexivity|]. split; [reflexivity|].
    split; [by do 2 apply all_dicts_insert|].
    intros ns' k'. rewrite !record_at_insert.
    destruct (decide (ns = ns')) as [->|Hne].
    + unfold record_at; simpl. rewrite E, lookup_insert, lookup_empty.
      destruct (decide (k = k')) as [->|Hk].
      * rewrite decide_True by done. reflexivity.
      * rewrite decide_False by tauto. reflexivity.
    + rewrite decide_False by tauto. reflexivity.
Qed.

Lemma memory_retrieve_data_spec now s ns k :
  exists s',
    retrieve_data now s ns k = Ok (answer now (ttl s) (record_at s ns k), s') /\
    ttl s' = ttl s /\
    (all_dicts s -> all_dicts s') /\
    forall ns' k',
      record_at s' ns' k' =
      op_effect (ttl s) (RetrieveData now ns k) ns' k' (record_at s ns' k').
Proof.
  destruct s as [T data].
  unfold retrieve_data, defaultdict_getitem, answer; simpl.
  destruct (data !! ns) as [[|d]|] eqn:E.
  - eexists; split; [unfold record_at; simpl; rewrite E; reflexivity|].
    split; [reflexivity|]. split; [done|].
    intros ns' k'. destruct (decide (ns = ns' /\ k = k')) as [[-> ->]|Hne];
      [|reflexivity].
    unfold record_at; simpl. rewrite E. reflexivity.
  - unfold record_at at 1; simpl. rewrite E.
    unfold dict_contains, dict_getitem, dict_delitem.
    destruct (d !! k) as [c|] eqn:Ek; simpl.
    + unfold expired; simpl.
      destruct (is_None (CachedHttpResponse._response c)
                && (CachedHttpResponse._mtime c + T <? now)) eqn:Ex; simpl.
      * eexists; split; [reflexivity|]. split; [reflexivity|].
        split; [by apply all_dicts_insert|].
        intros ns' k'. rewrite record_at_insert.
        destruct (decide (ns = ns')) as [->|Hne].
        -- unfold record_at; simpl. rewrite E, lookup_delete.
           destruct (decide (k = k')) as [->|Hk].
           ++ rewrite decide_True by done. rewrite Ek; simpl.
              unfold expired; simpl. rewrite Ex. reflexivity.
           ++ rewrite decide_False by tauto. reflexivity.
        -- rewrite decide_False by tauto. reflexivity.
      * eexists; split; [reflexivity|]. split; [reflexivity|].
        split; [done|].
        intros ns' k'.
        destruct (decide (ns = ns' /\ k = k')) as [[-> ->]|Hne];
          [|reflexivity].
        unfold record_at; simpl. rewrite E, Ek; simpl.
        unfold expired; simpl. rewrite Ex. reflexivity.
    + eexists; split; [reflexivity|]. split; [reflexivity|]. split; [done|].
      intros ns' k'.
      destruct (decide (ns = ns' /\ k = k')) as [[-> ->]|Hne];
        [|reflexivity].
      unfold record_at; simpl. rewrite E, Ek. reflexivity.
  - unfold record_at at 1; simpl. rewrite E; simpl.
    eexists; split; [reflexivity|]. split; [reflexivity|].
    split; [by apply all_dicts_insert|].
    intros ns' k'. rewrite record_at_insert.
    destruct (decide (ns = ns')) as [->|Hne].
    + unfold record_at; simpl. rewrite E, lookup_empty.
      destruct (decide (ns' = ns' /\ k = k')); reflexivity.
    + rewrite decide_False by tauto. reflexivity.
Qed.

Lemma memory_delete_data_spec s ns k :
  exists s',
    delete_data s ns k = Ok s' /\
    ttl s' = ttl s /\
    (all_dicts s -> all_dicts s') /\
    forall ns' k',
      record_at s' ns' k' =
      op_effect (ttl s) (DeleteData ns k) ns' k' (record_at s ns' k').
Proof.
  destruct s as [T data].
  unfold delete_data, defaultdict_getitem; simpl.
  destruct (data !! ns) as [[|d]|] eqn:E.
  - eexists; split; [reflexivity|]. split; [reflexivity|]. split; [done|].
    intros ns' k'. destruct (decide (ns = ns' /\ k = k')) as [[-> ->]|Hne];
      [|reflexivity].
    unfold record_at; simpl. rewrite E. reflexivity.
  - unfold dict_truthy, dict_contains, dict_delitem.
    destruct (d !! k) as [c|] eqn:Ek; simpl.
    + assert (size d <> 0%nat) as Hsz.
      { intros H0. apply map_size_empty_iff in H0. subst d.
        rewrite lookup_empty in Ek. discriminate. }
      apply Nat.eqb_neq in Hsz. rewrite Hsz; simpl.
      eexists; split; [reflexivity|]. split; [reflexivity|].
      split; [by apply all_dicts_insert|].
      intros ns' k'. rewrite record_at_insert.
      destruct (decide (ns = ns')) as [->|Hne].
      * unfold record_at; simpl. rewrite E, lookup_delete.
        destruct (decide (k = k')) as [->|Hk].
        -- rewrite decide_True by done. reflexivity.
        -- rewrite decide_False by tauto. reflexivity.
      * rewrite decide_False by tauto. reflexivity.
    + rewrite andb_false_r.
      eexists; split; [reflexivity|]. split; [reflexivity|]. split; [done|].
      intros ns' k'.
      destruct (decide (ns = ns' /\ k = k')) as [[-> ->]|Hne];
        [|reflexivity].
      unfold record_at; simpl. rewrite E, Ek. reflexivity.
  - eexists; split; [reflexivity|]. split; [reflexivity|].
    split; [by apply all_dicts_insert|].
    intros ns' k'. rewrite record_at_insert.
    destruct (decide (ns = ns')) as [->|Hne].
    + unfold record_at; simpl. rewrite E.
      destruct (decide (ns' = ns' /\ k = k')); reflexivity.
    + rewrite decide_False by tauto. reflexivity.
Qed.

End memory_methods.

(** ** [MemoryKeyStorage]: sequences of calls *)

Lemma memory_step_spec o s :
  all_dicts s ->
  exists s',
    memory_step o s = Ok s' /\
    MemoryKeyStorage.ttl s' = MemoryKeyStorage.ttl s /\
    all_dicts s' /\
    forall ns k,
      MemoryKeyStorage.record_at s' ns k =
      op_effect (MemoryKeyStorage.ttl s) o ns k
        (MemoryKeyStorage.record_at s ns k).
Proof.
  intros Hall. destruct o as [now ns k v|now ns k|ns k]; simpl.
  - apply memory_store_data_spec, Hall.
  - destruct (memory_retrieve_data_spec now s ns k) as (s' & -> & HT & Hd & Hr).
    exists s'; simpl. auto.
  - destruct (memory_delete_data_spec s ns k) as (s' & -> & HT & Hd & Hr).
    exists s'. auto.
Qed.


Lemma reachable_inv T s :
  reachable T s -> MemoryKeyStorage.ttl s = T /\ all_dicts s.
Proof.
  induction 1 as [|o s s' _ [HT Hall] Hstep].
  - split; [reflexivity | apply all_dicts_init].
  - destruct (memory_step_spec o s Hall) as (s1 & E & HT1 & Hall1 & _).
    rewrite E in Hstep. injection Hstep as <-. split; [congruence | exact Hall1].
Qed.

(** ** The life cycle alone *)






(** ** [CacheKeyStorage]: each method against the life cycle *)

Section cache_methods.
Import CacheKeyStorage.

Lemma cache_record_at_insert (caches : Django.registry) ns c ns' k' :
  record_at (<[ns := c]> caches) ns' k' =
  if decide (ns = ns') then c !! k' else record_at caches ns' k'.
Proof.
  unfold record_at. rewrite lookup_insert.
  destruct (decide (ns = ns')); reflexivity.
Qed.

Lemma is_Some_insert_mono (caches : Django.registry) ns c n :
  is_Some (caches !! n) -> is_Some (<[ns := c]> caches !! n).
Proof.
  intros H. rewrite lookup_insert. destruct (decide (ns = n)); eauto.
Qed.


Lemma cache_retrieve_data_spec now self (caches : Django.registry) ns k :
  is_Some (caches !! ns) ->
  exists caches',
    retrieve_data now self caches ns k =
      Ok (answer now (ttl self) (record_at caches ns k), caches') /\
    (forall n, is_Some (caches !! n) -> is_Some (caches' !! n)) /\
    forall ns' k',
      record_at caches' ns' k' =
      op_effect (ttl self) (RetrieveData now ns k) ns' k'
        (record_at caches ns' k').
Proof.
  intros [c E].
  unfold retrieve_data, Django.caches_getitem, Django.contains, Django.get,
    answer.
  unfold record_at at 1. rewrite E; simpl.
  destruct (c !! k) as [cached|] eqn:Ek; simpl.
  - unfold expired; simpl.
    destruct (is_None (CachedHttpResponse._response cached)
              && (CachedHttpResponse._mtime cached + ttl self <? now))
      eqn:Ex; simpl.
    + eexists; split; [reflexivity|].
      split; [intros n; apply is_Some_insert_mono|].
      intros ns' k'. rewrite cache_record_at_insert. unfold Django.delete.
      destruct (decide (ns = ns')) as [->|Hne].
      * unfold record_at. rewrite E, lookup_delete.
        destruct (decide (k = k')) as [->|Hk].
        -- rewrite decide_True by done. rewrite Ek; simpl.
           unfold expired; simpl. rewrite Ex. reflexivity.
        -- rewrite decide_False by tauto. reflexivity.
      * rewrite decide_False by tauto. reflexivity.
    + eexists; split; [reflexivity|]. split; [done|].
      intros ns' k'.
      destruct (decide (ns = ns' /\ k = k')) as [[-> ->]|Hne];
        [|reflexivity].
      unfold record_at. rewrite E, Ek; simpl.
      unfold expired; simpl. rewrite Ex. reflexivity.
  - eexists; split; [reflexivity|]. split; [done|].
    intros ns' k'.
    destruct (decide (ns = ns' /\ k = k')) as [[-> ->]|Hne]; [|reflexivity].
    unfold record_at. rewrite E, Ek. reflexivity.
Qed.

Lemma cache_delete_data_spec self (caches : Django.registry) ns k :
  is_Some (caches !! ns) ->
  exists caches',
    delete_data self caches ns k = Ok caches' /\
    (forall n, is_Some (caches !! n) -> is_Some (caches' !! n)) /\
    forall ns' k',
      record_at caches' ns' k' =
      op_effect (ttl self) (DeleteData ns k) ns' k'
        (record_at caches ns' k').
Proof.
  intros [c E].
  unfold delete_data, Django.caches_getitem, Django.contains.
  rewrite E; simpl.
  destruct (c !! k) as [cached|] eqn:Ek; simpl.
  - eexists; split; [reflexivity|].
    split; [intros n; apply is_Some_insert_mono|].
    intros ns' k'. rewrite cache_record_at_insert. unfold Django.delete.
    destruct (decide (ns = ns')) as [->|Hne].
    + unfold record_at. rewrite E, lookup_delete.
      destruct (decide (k = k')) as [->|Hk].
      * rewrite decide_True by done. reflexivity.
      * rewrite decide_False by tauto. reflexivity.
    + rewrite decide_False by tauto. reflexivity.
  - eexists; split; [reflexivity|]. split; [done|].
    intros ns' k'.
    destruct (decide (ns = ns' /\ k = k')) as [[-> ->]|Hne]; [|reflexivity].
    unfold record_at. rewrite E, Ek. reflexivity.
Qed.

(** A read that finds a live record does not touch the registry. *)
Lemma cache_retrieve_data_keeps now self (caches : Django.registry) ns k c :
  record_at caches ns k = Some c ->
  expired now (ttl self) c = false ->
  retrieve_data now self caches ns k =
    Ok ((true, CachedHttpResponse._response c), caches).
Proof.
  unfold record_at, expired; simpl. intros Hr Hx.
  unfold retrieve_data, Django.caches_getitem, Django.contains, Django.get.
  destruct (caches !! ns) as [d|]; [simpl|discriminate].
  rewrite Hr; simpl. rewrite Hx. reflexivity.
Qed.

End cache_methods.

Section memory_reads.
Import MemoryKeyStorage.


End memory_reads.


(** ** One call on the key it names *)

Lemma op_effect_store_same T now ns k v r :
  op_effect T (StoreData now ns k v) ns k r =
  Some (CachedHttpResponse.init now v).
Proof. simpl. by rewrite decide_True. Qed.

Lemma op_effect_delete_same T ns k r :
  op_effect T (DeleteData ns k) ns k r = None.
Proof. simpl. by rewrite decide_True. Qed.

(** ** Payload transitions *)



Lemma completed_store_reachable : reachable 5 completed_store.
Proof.
  apply (reachable_step 5
           (StoreData 0 "cache" "key1" (HttpResponse 201 ""))
           (MemoryKeyStorage.init 5) completed_store (reachable_init 5)).
  reflexivity.
Defined.



Lemma completed_registry_configured :
  is_Some (completed_registry !! "cache"%string).
Proof. eexists. reflexivity. Defined.


(** ** Completed records *)




(** ** Absence *)



(** ** Overwriting *)

(** C5. Last writer wins, [MemoryKeyStorage(T)]. On a key that holds a
    record [c0], [store_data(ns, k, R)] at time [t] succeeds; the record of
    [(ns, k)] is then exactly the payload [R] with [writtenAt = t], whatever
    [c0] was; every other record and the ttl are unchanged; and the
    resulting store is the very one obtained by deleting the old record
    first and storing afterwards (nothing of [c0] is merged in). *)
Theorem C5_last_writer_wins
    (T t : Z) (ns k : string) (R : pyobject) (c0 : record)
    (s : MemoryKeyStorage.t)
    (Hs : reachable T s)
    (Hc0 : MemoryKeyStorage.record_at s ns k = Some c0) :
  exists s',
    MemoryKeyStorage.store_data t s ns k R = Ok s' /\
    MemoryKeyStorage.record_at s' ns k = Some (CachedHttpResponse.mk R t) /\
    MemoryKeyStorage.ttl s' = MemoryKeyStorage.ttl s /\
    (forall ns' k', ~ (ns' = ns /\ k' = k) ->
       MemoryKeyStorage.record_at s' ns' k'
       = MemoryKeyStorage.record_at s ns' k') /\
    (exists s_del,
        MemoryKeyStorage.delete_data s ns k = Ok s_del /\
        MemoryKeyStorage.store_data t s_del ns k R = Ok s').
Proof.
  destruct (reachable_inv T s Hs) as [HT Hall].
  destruct (memory_store_data_spec t s ns k R Hall)
    as (s' & Hst & HT' & _ & Hr).
  exists s'. split; [exact Hst|].
  split; [by rewrite Hr, op_effect_store_same|].
  split; [exact HT'|]. split.
  - intros ns' k' Hne. rewrite Hr; simpl.
    rewrite decide_False; [reflexivity | intros [-> ->]; tauto].
  - clear Hr HT' Hall HT Hs. destruct s as [T0 data].
    unfold MemoryKeyStorage.record_at in Hc0; simpl in Hc0.
    unfold MemoryKeyStorage.store_data, MemoryKeyStorage.delete_data,
      MemoryKeyStorage.defaultdict_getitem in *; simpl in *.
    destruct (data !! ns) as [[|d]|] eqn:E; try discriminate.
    unfold dict_truthy, dict_contains, dict_delitem. rewrite Hc0; simpl.
    assert (size d <> 0%nat) as Hsz.
    { intros H0. apply map_size_empty_iff in H0. subst d.
      rewrite lookup_empty in Hc0. discriminate. }
    apply Nat.eqb_neq in Hsz. rewrite Hsz; simpl.
    eexists; split; [reflexivity|]. simpl.
    rewrite lookup_insert_eq, insert_insert_eq, insert_delete_eq.
    exact Hst.
Qed.

(** Scenario C of the specification, from C5: a second completed
    [store_data] on the key of [completed_store], at [t = 7]. *)
Lemma C5_scenario_C :
  exists s',
    MemoryKeyStorage.store_data 7 completed_store "cache" "key1"
      (HttpResponse 200 "ok") = Ok s' /\
    MemoryKeyStorage.record_at s' "cache" "key1"
      = Some (CachedHttpResponse.mk (HttpResponse 200 "ok") 7).
Proof.
  destruct (C5_last_writer_wins 5 7 "cache" "key1" (HttpResponse 200 "ok")
              (CachedHttpResponse.mk (HttpResponse 201 "") 0)
              completed_store completed_store_reachable eq_refl)
    as (s' & Hst & Hr & _).
  exists s'. split; [exact Hst | exact Hr].
Defined.

(** ** Deletion *)

(** C6. Deletion idempotence, both backends. [delete_data(ns, k)] does not
    raise, whether or not [(ns, k)] holds a record; when it holds none, no
    record of the store changes; and a [retrieve_data(ns, k)] that follows,
    at any time, returns [(False, None)]. For [MemoryKeyStorage] this holds
    in every state and for every namespace; for [CacheKeyStorage], [ns] is
    "the name of the cache to use defined in settings under CACHES". *)
Theorem C6_deletion_idempotence
    (T now : Z) (ns k : string)
    (s : MemoryKeyStorage.t) (caches : Django.registry)
    (Hc : is_Some (caches !! ns)) :
  (exists s1 s2,
      MemoryKeyStorage.delete_data s ns k = Ok s1 /\
      (MemoryKeyStorage.record_at s ns k = None ->
       forall ns' k', MemoryKeyStorage.record_at s1 ns' k'
                      = MemoryKeyStorage.record_at s ns' k') /\
      MemoryKeyStorage.retrieve_data now s1 ns k = Ok ((false, PyNone), s2))
  /\
  (let self := CacheKeyStorage.init T in
   exists c1 c2,
      CacheKeyStorage.delete_data self caches ns k = Ok c1 /\
      (CacheKeyStorage.record_at caches ns k = None -> c1 = caches) /\
      CacheKeyStorage.retrieve_data now self c1 ns k
        = Ok ((false, PyNone), c2)).
Proof.
  split.
  - destruct (memory_delete_data_spec s ns k) as (s1 & Hde & _ & _ & Hr1).
    destruct (memory_retrieve_data_spec now s1 ns k) as (s2 & Hre & _).
    exists s1, s2. split; [exact Hde|]. split.
    + intros Hnone ns' k'. rewrite Hr1; simpl.
      case_decide as Hd; [|reflexivity].
      destruct Hd as [<- <-]. by rewrite Hnone.
    + rewrite Hre, Hr1, op_effect_delete_same. reflexivity.
  - intros self.
    destruct (cache_delete_data_spec self caches ns k Hc)
      as (c1 & Hde & Hdom & Hr1).
    destruct (cache_retrieve_data_spec now self c1 ns k (Hdom ns Hc))
      as (c2 & Hre & _).
    exists c1, c2. split; [exact Hde|]. split.
    + intros Hnone. destruct Hc as [c E].
      unfold CacheKeyStorage.record_at in Hnone. rewrite E in Hnone.
      unfold CacheKeyStorage.delete_data, Django.caches_getitem,
        Django.contains in Hde.
      rewrite E in Hde; simpl in Hde. rewrite Hnone in Hde. congruence.
    + rewrite Hre, Hr1, op_effect_delete_same. reflexivity.
Qed.

(** C6 on the key of Scenario B (an existing record) in memory, and on a
    key that the configured cache ["cache"] does not hold. *)
Lemma C6_delete_then_retrieve :
  (exists s1 s2,
      MemoryKeyStorage.delete_data completed_store "cache" "key1" = Ok s1 /\
      MemoryKeyStorage.retrieve_data 9 s1 "cache" "key1"
        = Ok ((false, PyNone), s2))
  /\
  (exists c2,
      CacheKeyStorage.delete_data (CacheKeyStorage.init 5) completed_registry
        "cache" "missing" = Ok completed_registry /\
      CacheKeyStorage.retrieve_data 9 (CacheKeyStorage.init 5)
        completed_registry "cache" "missing" = Ok ((false, PyNone), c2)).
Proof.
  split.
  - destruct (C6_deletion_idempotence 5 9 "cache" "key1" completed_store
                completed_registry completed_registry_configured)
      as [(s1 & s2 & Hde & _ & Hre) _].
    exists s1, s2. split; [exact Hde | exact Hre].
  - destruct (C6_deletion_idempotence 5 9 "cache" "missing" completed_store
                completed_registry completed_registry_configured)
      as [_ (c1 & c2 & Hde & Hsame & Hre)].
    simpl in Hsame. specialize (Hsame eq_refl). subst c1.
    exists c2. split; [exact Hde | exact Hre].
Defined.

(** ** Namespaces *)

Section memory_frame.
Import MemoryKeyStorage.



End memory_frame.



(** ** Startup validation *)

(** C8. [CacheKeyStorage.validate_storage(name)] raises exactly when [name]
    is not one of the configured caches, and what it raises is then
    [InvalidCacheBackendError]; for a configured name it returns normally.
    [MemoryKeyStorage.validate_storage] returns normally for every name. *)
Theorem C8_validate_storage_fail_fast
    (caches : Django.registry) (name : string) :
  (raises (CacheKeyStorage.validate_storage caches name)
   <-> caches !! name = None) /\
  (caches !! name = None ->
   CacheKeyStorage.validate_storage caches name
   = Raise (InvalidCacheBackendError name)) /\
  (is_Some (caches !! name) ->
   CacheKeyStorage.validate_storage caches name = Ok tt) /\
  MemoryKeyStorage.validate_storage name = Ok tt /\
  ~ raises (MemoryKeyStorage.validate_storage name).
Proof.
  unfold CacheKeyStorage.validate_storage, Django.caches_getitem.
  destruct (caches !! name) as [c|] eqn:E; simpl.
  - split; [split; [tauto | discriminate]|].
    split; [discriminate|]. split; [reflexivity|]. split; [reflexivity|tauto].
  - split; [tauto|]. split; [reflexivity|].
    split; [intros [c Hc]; discriminate|]. split; [reflexivity|tauto].
Qed.

(** C8 on a registry whose only cache is ["cache"]: the misnamed
    ["cahce"] is caught, ["cache"] passes. *)
Lemma C8_misnamed_cache_caught :
  CacheKeyStorage.validate_storage completed_registry "cahce"
    = Raise (InvalidCacheBackendError "cahce") /\
  CacheKeyStorage.validate_storage completed_registry "cache" = Ok tt.
Proof.
  split.
  - destruct (C8_validate_storage_fail_fast completed_registry "cahce")
      as (_ & Hraise & _).
    apply Hraise. reflexivity.
  - destruct (C8_validate_storage_fail_fast completed_registry "cache")
      as (_ & _ & Hok & _).
    apply Hok. exact completed_registry_configured.
Defined.

(** ** The [response_and_mtime] setter *)

(** C9. Assigning [value] to [response_and_mtime] at time [now] raises
    [ValueError] whenever [value] is not an [HttpResponse] instance, [None]
    in particular, and for an [HttpResponse] it yields the object whose
    [response_and_mtime] is [(value, now)], whatever the object held. *)
Theorem C9_setter_rejects_non_responses
    (now : Z) (self : record) (value : pyobject) :
  (isinstance_HttpResponse value = false ->
   CachedHttpResponse.set_response_and_mtime now self value
   = Raise (ValueError "The value must be an instance of HttpResponse")) /\
  CachedHttpResponse.set_response_and_mtime now self PyNone
   = Raise (ValueError "The value must be an instance of HttpResponse") /\
  (isinstance_HttpResponse value = true ->
   exists self',
     CachedHttpResponse.set_response_and_mtime now self value = Ok self' /\
     CachedHttpResponse.response_and_mtime self' = (value, now)).
Proof.
  unfold CachedHttpResponse.set_response_and_mtime.
  split; [|split].
  - intros ->. reflexivity.
  - reflexivity.
  - intros ->. eexists. split; reflexivity.
Qed.

(** C9 on a reservation written at [t = 0]: completing it through the
    setter at [t = 8] refreshes both fields; a non-response is refused. *)
Lemma C9_setter_on_reservation :
  (exists self',
     CachedHttpResponse.set_response_and_mtime 8
       (CachedHttpResponse.init 0 PyNone) (HttpResponse 201 "") = Ok self' /\
     CachedHttpResponse.response_and_mtime self' = (HttpResponse 201 "", 8)) /\
  CachedHttpResponse.set_response_and_mtime 8
    (CachedHttpResponse.init 0 PyNone) (PyObject "dict")
  = Raise (ValueError "The value must be an instance of HttpResponse").
Proof.
  split.
  - destruct (C9_setter_rejects_non_responses 8
                (CachedHttpResponse.init 0 PyNone) (HttpResponse 201 ""))
      as (_ & _ & Hok).
    apply Hok. reflexivity.
  - destruct (C9_setter_rejects_non_responses 8
                (CachedHttpResponse.init 0 PyNone) (PyObject "dict"))
      as (Hraise & _).
    apply Hraise. reflexivity.
Defined.

(** ** The [defaultdict] table *)

(** C10. In every state of a [MemoryKeyStorage(T)], the namespace lookup
    [self.idempotency_key_cache_data[cache_name]] yields a dict, never
    [None], so the [the_cache is None] test of [retrieve_data] is never
    true. On a namespace never seen before, the lookup binds it to an empty
    dict: [retrieve_data] returns [(False, None)] and [delete_data] deletes
    nothing, and both leave the store with that one new, empty table. *)
Theorem C10_defaultdict_lookup
    (T now : Z) (ns k : string) (s : MemoryKeyStorage.t)
    (Hs : reachable T s) :
  (exists d data',
      MemoryKeyStorage.defaultdict_getitem
        (MemoryKeyStorage.idempotency_key_cache_data s) ns
      = (MemoryKeyStorage.SlotDict d, data'))
  /\
  (MemoryKeyStorage.idempotency_key_cache_data s !! ns = None ->
   let s' :=
     MemoryKeyStorage.mk (MemoryKeyStorage.ttl s)
       (<[ns := MemoryKeyStorage.SlotDict ∅]>
          (MemoryKeyStorage.idempotency_key_cache_data s)) in
   MemoryKeyStorage.retrieve_data now s ns k = Ok ((false, PyNone), s') /\
   MemoryKeyStorage.delete_data s ns k = Ok s' /\
   s' <> s /\
   forall ns' k', MemoryKeyStorage.record_at s' ns' k'
                  = MemoryKeyStorage.record_at s ns' k').
Proof.
  destruct (reachable_inv T s Hs) as [HT Hall]. split.
  - unfold MemoryKeyStorage.defaultdict_getitem.
    destruct (MemoryKeyStorage.idempotency_key_cache_data s !! ns)
      as [[|d]|] eqn:E; [by destruct (Hall ns) | eauto | eauto].
  - intros Hns s'. subst s'. destruct s as [T0 data]; simpl in *.
    unfold MemoryKeyStorage.retrieve_data, MemoryKeyStorage.delete_data,
      MemoryKeyStorage.defaultdict_getitem; simpl.
    rewrite Hns. split; [reflexivity|]. split; [reflexivity|]. split.
    + intros [= Heq].
      assert (<[ns:=MemoryKeyStorage.SlotDict ∅]> data !! ns = None) as Habs
        by (rewrite Heq; exact Hns).
      rewrite lookup_insert_eq in Habs. discriminate.
    + intros ns' k'. rewrite record_at_insert.
      destruct (decide (ns = ns')) as [<-|Hne]; [|reflexivity].
      unfold MemoryKeyStorage.record_at; simpl.
      by rewrite Hns, lookup_empty.
Qed.

(** C10 on [completed_store], which has never seen ["other"]. *)
Lemma C10_read_creates_empty_table :
  exists s',
    MemoryKeyStorage.retrieve_data 1 completed_store "other" "key1"
      = Ok ((false, PyNone), s') /\
    MemoryKeyStorage.idempotency_key_cache_data s' !! "other"%string
      = Some (MemoryKeyStorage.SlotDict ∅) /\
    MemoryKeyStorage.idempotency_key_cache_data completed_store
      !! "other"%string = None.
Proof.
  destruct (C10_defaultdict_lookup 5 1 "other" "key1" completed_store
              completed_store_reachable) as [_ H].
  destruct (H eq_refl) as (Hre & _).
  eexists. split; [exact Hre|]. split; reflexivity.
Defined.

(** * Further properties of the two stores *)

(** ** [MemoryKeyStorage]: each method in closed form *)

Section memory_closed_forms.
Import MemoryKeyStorage.

Lemma table_of_insert_eq (data : gmap string slot) ns d :
  table_of (<[ns := SlotDict d]> data) ns = d.
Proof. unfold table_of. by rewrite lookup_insert_eq. Qed.

Lemma table_of_insert_ne (data : gmap string slot) ns ns' d :
  ns <> ns' -> table_of (<[ns := SlotDict d]> data) ns' = table_of data ns'.
Proof. intros Hne. unfold table_of. by rewrite lookup_insert_ne. Qed.

Lemma record_at_table_of s ns k :
  record_at s ns k = table_of (idempotency_key_cache_data s) ns !! k.
Proof.
  unfold record_at, table_of.
  destruct (idempotency_key_cache_data s !! ns) as [[|d]|];
    [by rewrite lookup_empty | done | by rewrite lookup_empty].
Qed.

Lemma memory_store_data_closed now s ns k v :
  all_dicts s ->
  store_data now s ns k v =
  Ok (mk (ttl s)
        (<[ns := SlotDict (<[k := CachedHttpResponse.init now v]>
                             (table_of (idempotency_key_cache_data s) ns))]>
           (idempotency_key_cache_data s))).
Proof.
  destruct s as [T data]; intros Hall.
  unfold store_data, defaultdict_getitem, table_of; simpl.
  destruct (data !! ns) as [[|d]|] eqn:E.
  - destruct (Hall ns E).
  - reflexivity.
  - by rewrite insert_insert_eq.
Qed.

Lemma memory_delete_data_closed s ns k :
  all_dicts s ->
  delete_data s ns k =
  Ok (mk (ttl s)
        (<[ns := SlotDict (delete k
                             (table_of (idempotency_key_cache_data s) ns))]>
           (idempotency_key_cache_data s))).
Proof.
  destruct s as [T data]; intros Hall.
  unfold delete_data, defaultdict_getitem, table_of; simpl.
  destruct (data !! ns) as [[|d]|] eqn:E.
  - destruct (Hall ns E).
  - unfold dict_truthy, dict_contains, dict_delitem.
    destruct (d !! k) as [c|] eqn:Ek; simpl.
    + assert (size d <> 0%nat) as Hsz.
      { intros H0. apply map_size_empty_iff in H0. subst d.
        rewrite lookup_empty in Ek. discriminate. }
      apply Nat.eqb_neq in Hsz. by rewrite Hsz.
    + rewrite andb_false_r, delete_id by exact Ek.
      by rewrite insert_id.
  - unfold dict_contains. rewrite lookup_empty, andb_false_r.
    by rewrite delete_empty.
Qed.


End memory_closed_forms.





(** ** [MemoryKeyStorage]: the namespaces of the table *)




(** ** Reads that find a record *)

(** X4. A [retrieve_data] that answers [found = True] has changed nothing:
    the store it leaves is the store it was given (the namespace lookup
    created no table, nothing was deleted), and the response it returns is
    the payload of the record held under [(ns, k)]. Both backends, every
    state, every clock reading. *)
Theorem retrieve_data_found_is_read_only
    (now : Z) (ns k : string) (x y : pyobject)
    (s s' : MemoryKeyStorage.t)
    (self : CacheKeyStorage.t) (caches caches' : Django.registry) :
  (MemoryKeyStorage.retrieve_data now s ns k = Ok ((true, x), s') ->
   s' = s /\
   exists t0, MemoryKeyStorage.record_at s ns k
              = Some (CachedHttpResponse.mk x t0))
  /\
  (CacheKeyStorage.retrieve_data now self caches ns k
     = Ok ((true, y), caches') ->
   caches' = caches /\
   exists t0, CacheKeyStorage.record_at caches ns k
              = Some (CachedHttpResponse.mk y t0)).
Proof.
  split.
  - intros Hm. destruct s as [T data].
    unfold MemoryKeyStorage.retrieve_data,
      MemoryKeyStorage.defaultdict_getitem,
      MemoryKeyStorage.record_at in *; simpl in *.
    destruct (data !! ns) as [[|d]|]; try discriminate.
    unfold dict_contains, dict_getitem, dict_delitem in Hm.
    destruct (d !! k) as [[resp t0]|] eqn:Ek; simpl in Hm; [|discriminate].
    destruct (is_None resp && (t0 + T <? now)); simpl in Hm; [discriminate|].
    injection Hm as <- <-. split; [reflexivity | eauto].
  - intros Hc.
    unfold CacheKeyStorage.retrieve_data, Django.caches_getitem,
      Django.contains, Django.get, CacheKeyStorage.record_at in *.
    destruct (caches !! ns) as [c|]; simpl in Hc; [|discriminate].
    destruct (c !! k) as [[resp t0]|] eqn:Ek; simpl in Hc; [|discriminate].
    destruct (is_None resp && (t0 + CacheKeyStorage.ttl self <? now));
      simpl in Hc; [discriminate|].
    injection Hc as <- <-. split; [reflexivity | eauto].
Qed.

(** X4 on the completed records of the example states. *)
Lemma retrieve_data_found_is_read_only_example :
  exists s' caches',
    MemoryKeyStorage.retrieve_data 7 completed_store "cache" "key1"
      = Ok ((true, HttpResponse 201 ""), s') /\
    CacheKeyStorage.retrieve_data 7 (CacheKeyStorage.init 5)
      completed_registry "cache" "key1"
      = Ok ((true, HttpResponse 201 ""), caches') /\
    s' = completed_store /\ caches' = completed_registry.
Proof.
  eexists _, _.
  assert (MemoryKeyStorage.retrieve_data 7 completed_store "cache" "key1"
          = Ok ((true, HttpResponse 201 ""), completed_store)) as Hm
    by reflexivity.
  assert (CacheKeyStorage.retrieve_data 7 (CacheKeyStorage.init 5)
            completed_registry "cache" "key1"
          = Ok ((true, HttpResponse 201 ""), completed_registry)) as Hc
    by reflexivity.
  split; [exact Hm|]. split; [exact Hc|].
  destruct (retrieve_data_found_is_read_only 7 "cache" "key1"
              (HttpResponse 201 "") (HttpResponse 201 "")
              completed_store completed_store
              (CacheKeyStorage.init 5) completed_registry completed_registry)
    as [H1 H2].
  split; [exact (proj1 (H1 Hm)) | exact (proj1 (H2 Hc))].
Defined.

(** ** Repeated calls *)






(** X7. [delete_data] is idempotent on the whole store: a second
    [delete_data(ns, k)] returns normally and leaves the store exactly as
    the first left it. Both backends. *)
Theorem delete_data_idempotent
    (T : Z) (ns k : string)
    (s : MemoryKeyStorage.t) (self : CacheKeyStorage.t)
    (caches : Django.registry)
    (Hs : reachable T s)
    (Hc : is_Some (caches !! ns)) :
  (exists s1,
      MemoryKeyStorage.delete_data s ns k = Ok s1 /\
      MemoryKeyStorage.delete_data s1 ns k = Ok s1)
  /\
  (exists c1,
      CacheKeyStorage.delete_data self caches ns k = Ok c1 /\
      CacheKeyStorage.delete_data self c1 ns k = Ok c1).
Proof.
  split.
  - destruct (reachable_inv T s Hs) as [HT Hall].
    rewrite (memory_delete_data_closed s ns k Hall).
    eexists. split; [reflexivity|].
    rewrite memory_delete_data_closed by (by apply all_dicts_insert).
    simpl. by rewrite table_of_insert_eq, delete_delete_eq, insert_insert_eq.
  - destruct Hc as [c E].
    unfold CacheKeyStorage.delete_data, Django.caches_getitem,
      Django.contains.
    rewrite E; simpl.
    destruct (c !! k) as [cached|] eqn:Ek; simpl.
    + eexists. split; [reflexivity|].
      rewrite lookup_insert_eq; simpl. unfold Django.delete.
      by rewrite lookup_delete_eq.
    + eexists. split; [reflexivity|].
      rewrite E; simpl. by rewrite Ek.
Qed.

(** X7 on the one record of the example states. *)
Lemma delete_data_idempotent_example :
  (exists s1,
      MemoryKeyStorage.delete_data completed_store "cache" "key1" = Ok s1 /\
      MemoryKeyStorage.delete_data s1 "cache" "key1" = Ok s1 /\
      MemoryKeyStorage.record_at s1 "cache" "key1" = None)
  /\
  (exists c1,
      CacheKeyStorage.delete_data (CacheKeyStorage.init 5) completed_registry
        "cache" "key1" = Ok c1 /\
      CacheKeyStorage.delete_data (CacheKeyStorage.init 5) c1
        "cache" "key1" = Ok c1).
Proof.
  destruct (delete_data_idempotent 5 "cache" "key1" completed_store
              (CacheKeyStorage.init 5) completed_registry
              completed_store_reachable completed_registry_configured)
    as [(s1 & H1 & H2) (c1 & H3 & H4)].
  split.
  - exists s1. split; [exact H1|]. split; [exact H2|].
    vm_compute in H1. injection H1 as <-. reflexivity.
  - exists c1. split; [exact H3 | exact H4].
Defined.

(** ** Stores followed by stores and by deletions *)

(** X8. Storing under a key that held nothing and deleting it again undoes
    the store. In [CacheKeyStorage] the registry is back to what it was. In
    [MemoryKeyStorage] every namespace stands for the dict it stood for
    before, and the store itself is back to what it was when the namespace
    had been seen before (otherwise its empty table stays behind). *)
Theorem store_then_delete_undoes
    (T now : Z) (ns k : string) (v : pyobject)
    (s : MemoryKeyStorage.t) (self : CacheKeyStorage.t)
    (caches : Django.registry)
    (Hs : reachable T s)
    (Hc : is_Some (caches !! ns))
    (Hm0 : MemoryKeyStorage.record_at s ns k = None)
    (Hc0 : CacheKeyStorage.record_at caches ns k = None) :
  (exists s1 s2,
      MemoryKeyStorage.store_data now s ns k v = Ok s1 /\
      MemoryKeyStorage.delete_data s1 ns k = Ok s2 /\
      (forall ns',
         table_of (MemoryKeyStorage.idempotency_key_cache_data s2) ns'
         = table_of (MemoryKeyStorage.idempotency_key_cache_data s) ns') /\
      (is_Some (MemoryKeyStorage.idempotency_key_cache_data s !! ns) ->
       s2 = s))
  /\
  (exists c1,
      CacheKeyStorage.store_data now self caches ns k v = Ok c1 /\
      CacheKeyStorage.delete_data self c1 ns k = Ok caches).
Proof.
  split.
  - destruct (reachable_inv T s Hs) as [HT Hall].
    rewrite (memory_store_data_closed now s ns k v Hall).
    eexists _, _. split; [reflexivity|].
    rewrite memory_delete_data_closed by (by apply all_dicts_insert).
    simpl. rewrite table_of_insert_eq, delete_insert_eq, insert_insert_eq.
    rewrite record_at_table_of in Hm0.
    rewrite (delete_id _ _ Hm0).
    split; [reflexivity|]. split.
    + intros ns'. simpl. destruct (decide (ns = ns')) as [<-|Hne].
      * by rewrite table_of_insert_eq.
      * by rewrite table_of_insert_ne.
    + intros [sl E]. destruct s as [T0 data]; simpl in *. f_equal.
      apply insert_id. rewrite E. unfold table_of. rewrite E.
      destruct sl as [|d]; [destruct (Hall ns E) | reflexivity].
  - destruct Hc as [c E].
    unfold CacheKeyStorage.record_at in Hc0. rewrite E in Hc0.
    unfold CacheKeyStorage.store_data, CacheKeyStorage.delete_data,
      Django.caches_getitem, Django.contains, Django.set, Django.delete.
    rewrite E; simpl. eexists. split; [reflexivity|].
    rewrite lookup_insert_eq; simpl. rewrite lookup_insert_eq; simpl.
    rewrite delete_insert_eq, insert_insert_eq, (delete_id _ _ Hc0).
    by rewrite insert_id.
Qed.

(** X8 on a second key of the example states. *)
Lemma store_then_delete_undoes_example :
  (exists s1,
      MemoryKeyStorage.store_data 3 completed_store "cache" "key2" PyNone
        = Ok s1 /\
      MemoryKeyStorage.delete_data s1 "cache" "key2" = Ok completed_store)
  /\
  (exists c1,
      CacheKeyStorage.store_data 3 (CacheKeyStorage.init 5)
        completed_registry "cache" "key2" PyNone = Ok c1 /\
      CacheKeyStorage.delete_data (CacheKeyStorage.init 5) c1 "cache" "key2"
        = Ok completed_registry).
Proof.
  destruct (store_then_delete_undoes 5 3 "cache" "key2" PyNone
              completed_store (CacheKeyStorage.init 5) completed_registry
              completed_store_reachable completed_registry_configured
              eq_refl eq_refl)
    as [(s1 & s2 & H1 & H2 & _ & Hsame) Hcache].
  split; [|exact Hcache].
  exists s1. split; [exact H1|].
  rewrite H2. f_equal. apply Hsame. eexists. reflexivity.
Defined.

(** X9. Two [store_data] calls in a row on one key leave the store exactly
    as the second call alone would have: nothing of the first call, neither
    its payload nor its timestamp, survives anywhere in the store, whether
    the first call wrote a reservation or a response. Both backends. *)
Theorem store_data_twice_is_last_store
    (T t1 t2 : Z) (ns k : string) (v1 v2 : pyobject)
    (s : MemoryKeyStorage.t) (self : CacheKeyStorage.t)
    (caches : Django.registry)
    (Hs : reachable T s)
    (Hc : is_Some (caches !! ns)) :
  (exists s1 s2,
      MemoryKeyStorage.store_data t1 s ns k v1 = Ok s1 /\
      MemoryKeyStorage.store_data t2 s1 ns k v2 = Ok s2 /\
      MemoryKeyStorage.store_data t2 s ns k v2 = Ok s2)
  /\
  (exists c1 c2,
      CacheKeyStorage.store_data t1 self caches ns k v1 = Ok c1 /\
      CacheKeyStorage.store_data t2 self c1 ns k v2 = Ok c2 /\
      CacheKeyStorage.store_data t2 self caches ns k v2 = Ok c2).
Proof.
  split.
  - destruct (reachable_inv T s Hs) as [HT Hall].
    rewrite (memory_store_data_closed t1 s ns k v1 Hall).
    rewrite (memory_store_data_closed t2 s ns k v2 Hall).
    eexists _, _. split; [reflexivity|].
    rewrite memory_store_data_closed by (by apply all_dicts_insert).
    simpl. rewrite table_of_insert_eq, !insert_insert_eq.
    split; reflexivity.
  - destruct Hc as [c E].
    unfold CacheKeyStorage.store_data, Django.caches_getitem, Django.set.
    rewrite E; simpl. eexists _, _. split; [reflexivity|].
    rewrite lookup_insert_eq; simpl. rewrite !insert_insert_eq.
    split; reflexivity.
Qed.

(** X9 on a reservation at [t = 1] completed at [t = 2]. *)
Lemma store_data_twice_is_last_store_example :
  exists s1 s2,
    MemoryKeyStorage.store_data 1 (MemoryKeyStorage.init 5) "cache" "key1"
      PyNone = Ok s1 /\
    MemoryKeyStorage.store_data 2 s1 "cache" "key1" (HttpResponse 201 "")
      = Ok s2 /\
    MemoryKeyStorage.store_data 2 (MemoryKeyStorage.init 5) "cache" "key1"
      (HttpResponse 201 "") = Ok s2.
Proof.
  exact (proj1 (store_data_twice_is_last_store 5 1 2 "cache" "key1"
                  PyNone (HttpResponse 201 "")
                  (MemoryKeyStorage.init 5) (CacheKeyStorage.init 5)
                  completed_registry (reachable_init 5)
                  completed_registry_configured)).
Defined.

(** ** [CacheKeyStorage]: each method in closed form *)

Section cache_closed_forms.
Import CacheKeyStorage.




Lemma cache_unconfigured now self (caches : Django.registry) ns k v :
  caches !! ns = None ->
  store_data now self caches ns k v = Raise (InvalidCacheBackendError ns) /\
  retrieve_data now self caches ns k = Raise (InvalidCacheBackendError ns) /\
  delete_data self caches ns k = Raise (InvalidCacheBackendError ns) /\
  validate_storage caches ns = Raise (InvalidCacheBackendError ns).
Proof.
  intros E.
  unfold store_data, retrieve_data, delete_data, validate_storage,
    Django.caches_getitem.
  rewrite E. repeat split; reflexivity.
Qed.

End cache_closed_forms.




(** ** [CacheKeyStorage]: the life cycle of a record *)



(** * The stores on the float clock *)

(** ** binary64: the one exception of [mtime + ttl] *)

Lemma of_int_cases n :
  (exists f, Binary64.of_int n = Ok f) \/
  Binary64.of_int n = Raise OverflowError.
Proof.
  unfold Binary64.of_int.
  destruct (binary_normalize Binary64.prec Binary64.emax n 0 false); eauto.
Qed.

Lemma add_int_ok x n f :
  Binary64.of_int n = Ok f -> Binary64.add_int x n = Ok (Binary64.add x f).
Proof. intros E. unfold Binary64.add_int. by rewrite E. Qed.

Lemma add_int_raises x n e :
  Binary64.add_int x n = Raise e ->
  e = OverflowError /\ Binary64.of_int n = Raise OverflowError.
Proof.
  unfold Binary64.add_int.
  destruct (of_int_cases n) as [[f ->] | ->]; simpl; [discriminate|].
  by intros [= <-].
Qed.

Lemma add_int_ok_inv x n d :
  Binary64.add_int x n = Ok d -> exists f, Binary64.of_int n = Ok f.
Proof.
  unfold Binary64.add_int.
  destruct (of_int_cases n) as [[f ->] | ->]; simpl; [eauto | discriminate].
Qed.

Lemma stale64_reservation now T t0 :
  stale64 now T (CachedHttpResponse64.mk PyNone t0)
  = (deadline ← Binary64.add_int t0 T; Ok (Binary64.lt deadline now)).
Proof. reflexivity. Qed.

Lemma stale64_completed now T c :
  CachedHttpResponse64._response c <> PyNone -> stale64 now T c = Ok false.
Proof.
  unfold stale64; simpl.
  destruct (CachedHttpResponse64._response c); simpl; congruence.
Qed.

(** ** [MemoryKeyStorage], float clock: each method in closed form *)

Section memory64_closed_forms.
Import MemoryKeyStorage64.

Lemma all_dicts64_insert (T : Z) (data : gmap string slot) ns d :
  all_dicts64 (mk T data) -> all_dicts64 (mk T (<[ns := SlotDict d]> data)).
Proof.
  intros Hall ns'; simpl. rewrite lookup_insert.
  destruct (decide (ns = ns')); [discriminate | apply Hall].
Qed.

Lemma all_dicts64_init (T : Z) : all_dicts64 (init T).
Proof. intros ns; simpl. rewrite lookup_empty. discriminate. Qed.

Lemma table_of64_insert_eq (data : gmap string slot) ns d :
  table_of64 (<[ns := SlotDict d]> data) ns = d.
Proof. unfold table_of64. by rewrite lookup_insert_eq. Qed.

Lemma table_of64_insert_ne (data : gmap string slot) ns ns' d :
  ns <> ns' -> table_of64 (<[ns := SlotDict d]> data) ns' = table_of64 data ns'.
Proof. intros Hne. unfold table_of64. by rewrite lookup_insert_ne. Qed.

Lemma record_at64_table_of s ns k :
  record_at s ns k = table_of64 (idempotency_key_cache_data s) ns !! k.
Proof.
  unfold record_at, table_of64.
  destruct (idempotency_key_cache_data s !! ns) as [[|d]|];
    [by rewrite lookup_empty | done | by rewrite lookup_empty].
Qed.

Lemma memory64_store_data_closed now s ns k v :
  all_dicts64 s ->
  store_data now s ns k v =
  Ok (mk (ttl s)
        (<[ns := SlotDict (<[k := CachedHttpResponse64.init now v]>
                             (table_of64 (idempotency_key_cache_data s) ns))]>
           (idempotency_key_cache_data s))).
Proof.
  destruct s as [T data]; intros Hall.
  unfold store_data, defaultdict_getitem, table_of64; simpl.
  destruct (data !! ns) as [[|d]|] eqn:E.
  - destruct (Hall ns E).
  - reflexivity.
  - by rewrite insert_insert_eq.
Qed.

Lemma memory64_delete_data_closed s ns k :
  all_dicts64 s ->
  delete_data s ns k =
  Ok (mk (ttl s)
        (<[ns := SlotDict (delete k
                             (table_of64 (idempotency_key_cache_data s) ns))]>
           (idempotency_key_cache_data s))).
Proof.
  destruct s as [T data]; intros Hall.
  unfold delete_data, defaultdict_getitem, table_of64; simpl.
  destruct (data !! ns) as [[|d]|] eqn:E.
  - destruct (Hall ns E).
  - unfold PyDict.truthy, PyDict.contains, PyDict.delitem.
    destruct (d !! k) as [c|] eqn:Ek; simpl.
    + assert (size d <> 0%nat) as Hsz.
      { intros H0. apply map_size_empty_iff in H0. subst d.
        rewrite lookup_empty in Ek. discriminate. }
      apply Nat.eqb_neq in Hsz. by rewrite Hsz.
    + rewrite andb_false_r, delete_id by exact Ek.
      by rewrite insert_id.
  - unfold PyDict.contains. rewrite lookup_empty, andb_false_r.
    by rewrite delete_empty.
Qed.

Lemma memory64_retrieve_data_closed now s ns k :
  all_dicts64 s ->
  let d := table_of64 (idempotency_key_cache_data s) ns in
  let same := mk (ttl s) (<[ns := SlotDict d]> (idempotency_key_cache_data s)) in
  retrieve_data now s ns k =
  match d !! k with
  | None => Ok ((false, PyNone), same)
  | Some c =>
      stale ← stale64 now (ttl s) c;
      if (stale : bool)
      then Ok ((false, PyNone),
               mk (ttl s)
                 (<[ns := SlotDict (delete k d)]>
                    (idempotency_key_cache_data s)))
      else Ok ((true, CachedHttpResponse64._response c), same)
  end.
Proof.
  destruct s as [T data]; intros Hall.
  unfold retrieve_data, defaultdict_getitem, table_of64, stale64; simpl.
  destruct (data !! ns) as [[|d]|] eqn:E.
  - destruct (Hall ns E).
  - unfold PyDict.contains, PyDict.getitem, PyDict.delitem.
    destruct (d !! k) as [[resp t0]|] eqn:Ek; simpl.
    + destruct (is_None resp); simpl.
      * destruct (Binary64.add_int t0 T) as [dl|e]; simpl; [|reflexivity].
        destruct (Binary64.lt dl now); simpl; [reflexivity|].
        by rewrite insert_id.
      * by rewrite insert_id.
    + by rewrite insert_id.
  - rewrite lookup_empty. reflexivity.
Qed.

End memory64_closed_forms.

Lemma memory_step64_inv o s s' :
  all_dicts64 s ->
  memory_step64 o s = Ok s' ->
  all_dicts64 s' /\ MemoryKeyStorage64.ttl s' = MemoryKeyStorage64.ttl s.
Proof.
  intros Hall. destruct s as [T data].
  destruct o as [now ns k v|now ns k|ns k]; simpl.
  - rewrite memory64_store_data_closed by exact Hall. intros [= <-].
    split; [by apply all_dicts64_insert | reflexivity].
  - rewrite (memory64_retrieve_data_closed now _ ns k Hall); simpl.
    destruct (table_of64 data ns !! k) as [c|]; simpl.
    + destruct (stale64 now T c) as [[|]|e]; simpl; try discriminate;
        intros [= <-]; (split; [by apply all_dicts64_insert | reflexivity]).
    + intros [= <-]. split; [by apply all_dicts64_insert | reflexivity].
  - rewrite memory64_delete_data_closed by exact Hall. intros [= <-].
    split; [by apply all_dicts64_insert | reflexivity].
Qed.

Lemma reachable64_inv T s :
  reachable64 T s -> MemoryKeyStorage64.ttl s = T /\ all_dicts64 s.
Proof.
  induction 1 as [|o s s' _ [HT Hall] Hstep].
  - split; [reflexivity | apply all_dicts64_init].
  - destruct (memory_step64_inv o s s' Hall Hstep) as [Hall' HT'].
    split; [congruence | exact Hall'].
Qed.

(** ** [CacheKeyStorage], float clock: each method in closed form *)

Section cache64_closed_forms.
Import CacheKeyStorage64.

Lemma cache64_store_data_closed now self (caches : Django64.registry)
    ns k v d :
  caches !! ns = Some d ->
  store_data now self caches ns k v =
  Ok (<[ns := <[k := CachedHttpResponse64.init now v]> d]> caches).
Proof.
  intros E. unfold store_data, Django64.caches_getitem, Django64.set.
  by rewrite E.
Qed.

Lemma cache64_retrieve_data_closed now self (caches : Django64.registry)
    ns k d :
  caches !! ns = Some d ->
  retrieve_data now self caches ns k =
  match d !! k with
  | None => Ok ((false, PyNone), caches)
  | Some c =>
      stale ← stale64 now (ttl self) c;
      if (stale : bool)
      then Ok ((false, PyNone), <[ns := delete k d]> caches)
      else Ok ((true, CachedHttpResponse64._response c), caches)
  end.
Proof.
  intros E.
  unfold retrieve_data, Django64.caches_getitem, Django64.contains,
    Django64.get, Django64.delete, stale64.
  rewrite E; simpl. destruct (d !! k) as [[resp t0]|] eqn:Ek; simpl.
  - destruct (is_None resp); simpl; [|reflexivity].
    destruct (Binary64.add_int t0 (ttl self)) as [dl|e]; simpl;
      [|reflexivity].
    destruct (Binary64.lt dl now); reflexivity.
  - reflexivity.
Qed.

Lemma dropped_lookup (c c' : Django64.registry) ns d :
  Django64.dropped c c' ->
  c !! ns = Some d ->
  exists d', c' !! ns = Some d' /\ d' ⊆ d.
Proof.
  intros Hdrop E. specialize (Hdrop ns). rewrite E in Hdrop.
  destruct (c' !! ns) as [d'|]; [eauto | destruct Hdrop].
Qed.

Lemma dropped_evict (c : Django64.registry) ns k :
  Django64.dropped c (Django64.evict ns k c).
Proof.
  intros alias. unfold Django64.evict.
  destruct (c !! ns) as [d|] eqn:E.
  - rewrite lookup_insert. destruct (decide (ns = alias)) as [<-|Hne].
    + rewrite E. apply delete_subseteq.
    + destruct (c !! alias); done.
  - destruct (c !! alias); done.
Qed.

Lemma dropped_refl (c : Django64.registry) : Django64.dropped c c.
Proof. intros alias. destruct (c !! alias); done. Qed.

End cache64_closed_forms.

(** ** Reservations and their time to live *)

(** C1, as stated, fails in two ways.

    Rounding. [ttl = 1]; the reservation is written when the clock reads
    the last float before [2^31] seconds, [t0 = 2^31 - 2^-22], and read when
    it reads [2^31 + 1]. The read is strictly later than [t0 + ttl], by
    [2^-22] s. But [t0 + 1] lies half-way between two floats and rounds to
    [2^31 + 1], which is not less than the clock reading: [retrieve_data]
    returns [(True, None)] and deletes nothing.

    Eviction. [ttl = 600] on [CacheKeyStorage]; the reservation is written
    at 1 700 000 000 s, the backend then drops it (its default timeout is
    shorter than this ttl), and the read comes at 1 700 000 400 s, earlier
    than [t0 + ttl]: [retrieve_data] returns [(False, None)]. *)
Lemma C1_rounding_and_eviction_move_the_deadline :
  (exists q0 qn s1,
      Binary64.value last_before_2038 = Some q0 /\
      Binary64.value (seconds (2 ^ 31 + 1)) = Some qn /\
      (q0 + inject_Z 1 < qn)%Q /\
      MemoryKeyStorage64.store_data last_before_2038
        (MemoryKeyStorage64.init 1) "cache" "key1" PyNone = Ok s1 /\
      MemoryKeyStorage64.retrieve_data (seconds (2 ^ 31 + 1)) s1
        "cache" "key1" = Ok ((true, PyNone), s1))
  /\
  (exists c1 c,
      CacheKeyStorage64.store_data (seconds 1700000000)
        (CacheKeyStorage64.init 600) {["cache"%string := ∅]}
        "cache" "key1" PyNone = Ok c1 /\
      c = Django64.evict "cache" "key1" c1 /\
      Django64.dropped c1 c /\
      CacheKeyStorage64.retrieve_data (seconds 1700000400)
        (CacheKeyStorage64.init 600) c "cache" "key1"
      = Ok ((false, PyNone), c)).
Proof.
  split.
  - eexists _, _, _. split; [reflexivity|]. split; [reflexivity|].
    split; [vm_compute; reflexivity|]. split; [reflexivity|].
    vm_compute. reflexivity.
  - eexists _, _. split; [reflexivity|]. split; [reflexivity|].
    split; [apply dropped_evict|]. vm_compute. reflexivity.
Qed.

(** C1, amended. Both backends constructed with [ttl = T], a reservation
    of [(ns, k)] written when the clock reads [t0], and [deadline] the
    float that [t0 + T] evaluates to (the int [T] converted to float, the
    sum rounded to nearest).

    [MemoryKeyStorage], in any state: [store_data(ns, k, None)] succeeds;
    a [retrieve_data(ns, k)] at a clock reading [now] with [deadline < now]
    false returns [(True, None)] and leaves the store as it is; at a
    reading with [deadline < now] true it returns [(False, None)], the
    record is gone from the resulting store, and any further
    [retrieve_data(ns, k)] on that store returns [(False, None)] and leaves
    it as it is.

    [CacheKeyStorage], on a configured cache: [store_data] writes the
    record [(None, t0)]. In any registry [c] that the backend's own
    dropping of records has made of it by the time of the read, the record
    is either still that one or gone. If it is still there, the read
    answers as for [MemoryKeyStorage], and after a reclamation every
    further read answers [(False, None)], whatever else the backend has
    dropped. If the backend has dropped it, the read answers
    [(False, None)]. *)
Theorem C1_reservation_reclaimed_at_rounded_deadline
    (T : Z) (t0 now deadline : spec_float) (ns k : string)
    (s : MemoryKeyStorage64.t) (caches : Django64.registry)
    (Hs : reachable64 T s)
    (Hc : is_Some (caches !! ns))
    (Hd : Binary64.add_int t0 T = Ok deadline) :
  (exists s1,
      MemoryKeyStorage64.store_data t0 s ns k PyNone = Ok s1 /\
      (Binary64.lt deadline now = false ->
       MemoryKeyStorage64.retrieve_data now s1 ns k
       = Ok ((true, PyNone), s1)) /\
      (Binary64.lt deadline now = true ->
       exists s2,
         MemoryKeyStorage64.retrieve_data now s1 ns k
         = Ok ((false, PyNone), s2) /\
         MemoryKeyStorage64.record_at s2 ns k = None /\
         forall now',
           MemoryKeyStorage64.retrieve_data now' s2 ns k
           = Ok ((false, PyNone), s2)))
  /\
  (let self := CacheKeyStorage64.init T in
   let reservation := CachedHttpResponse64.mk PyNone t0 in
   exists c1,
      CacheKeyStorage64.store_data t0 self caches ns k PyNone = Ok c1 /\
      CacheKeyStorage64.record_at c1 ns k = Some reservation /\
      forall c, Django64.dropped c1 c ->
        (CacheKeyStorage64.record_at c ns k = Some reservation \/
         CacheKeyStorage64.record_at c ns k = None) /\
        (CacheKeyStorage64.record_at c ns k = Some reservation ->
         Binary64.lt deadline now = false ->
         CacheKeyStorage64.retrieve_data now self c ns k
         = Ok ((true, PyNone), c)) /\
        (CacheKeyStorage64.record_at c ns k = Some reservation ->
         Binary64.lt deadline now = true ->
         exists c2,
           CacheKeyStorage64.retrieve_data now self c ns k
           = Ok ((false, PyNone), c2) /\
           CacheKeyStorage64.record_at c2 ns k = None /\
           forall c3 now', Django64.dropped c2 c3 ->
             CacheKeyStorage64.retrieve_data now' self c3 ns k
             = Ok ((false, PyNone), c3)) /\
        (CacheKeyStorage64.record_at c ns k = None ->
         CacheKeyStorage64.retrieve_data now self c ns k
         = Ok ((false, PyNone), c))).
Proof.
  split.
  - destruct (reachable64_inv T s Hs) as [HT Hall].
    destruct s as [T0 data]; simpl in HT; subst T0.
    rewrite (memory64_store_data_closed t0 _ ns k PyNone Hall); simpl.
    set (d1 := <[k := CachedHttpResponse64.init t0 PyNone]>
                 (table_of64 data ns)).
    assert (all_dicts64
              (MemoryKeyStorage64.mk T
                 (<[ns := MemoryKeyStorage64.SlotDict d1]> data))) as Hall1
      by (by apply all_dicts64_insert).
    eexists. split; [reflexivity|]. split.
    + intros Hlive.
      rewrite (memory64_retrieve_data_closed now _ ns k Hall1); simpl.
      rewrite table_of64_insert_eq. unfold d1 at 1. rewrite lookup_insert_eq.
      unfold CachedHttpResponse64.init. rewrite stale64_reservation, Hd.
      simpl. rewrite Hlive. by rewrite insert_insert_eq.
    + intros Hstale.
      rewrite (memory64_retrieve_data_closed now _ ns k Hall1); simpl.
      rewrite table_of64_insert_eq. unfold d1 at 1. rewrite lookup_insert_eq.
      unfold CachedHttpResponse64.init. rewrite stale64_reservation, Hd.
      simpl. rewrite Hstale, insert_insert_eq.
      eexists. split; [reflexivity|]. split.
      * rewrite record_at64_table_of; simpl.
        by rewrite table_of64_insert_eq, lookup_delete_eq.
      * intros now'.
        rewrite memory64_retrieve_data_closed
          by (by apply all_dicts64_insert).
        simpl. rewrite table_of64_insert_eq, lookup_delete_eq.
        by rewrite insert_insert_eq.
  - intros self reservation. destruct Hc as [d E].
    rewrite (cache64_store_data_closed t0 self caches ns k PyNone d E).
    set (d1 := <[k := CachedHttpResponse64.init t0 PyNone]> d).
    eexists. split; [reflexivity|].
    assert ((<[ns := d1]> caches : Django64.registry) !! ns = Some d1) as E1
      by apply lookup_insert_eq.
    split.
    { unfold CacheKeyStorage64.record_at. rewrite E1.
      apply lookup_insert_eq. }
    intros c Hdrop.
    destruct (dropped_lookup _ c ns d1 Hdrop E1) as (d' & E' & Hsub).
    assert (forall x, d' !! k = Some x -> x = reservation) as Honly.
    { intros x Hx. pose proof (lookup_weaken _ _ _ _ Hx Hsub) as Hx1.
      unfold d1 in Hx1. rewrite lookup_insert_eq in Hx1.
      injection Hx1 as <-. reflexivity. }
    unfold CacheKeyStorage64.record_at. rewrite E'.
    rewrite (cache64_retrieve_data_closed now self c ns k d' E').
    split; [|split; [|split]].
    + destruct (d' !! k) as [x|] eqn:Ex; [left | by right].
      by rewrite (Honly x eq_refl).
    + intros -> Hlive. unfold reservation.
      rewrite stale64_reservation. simpl. rewrite Hd. simpl.
      by rewrite Hlive.
    + intros -> Hstale. unfold reservation.
      rewrite stale64_reservation. simpl. rewrite Hd. simpl. rewrite Hstale.
      eexists. split; [reflexivity|]. rewrite lookup_insert_eq.
      split; [apply lookup_delete_eq|].
      intros c3 now' Hdrop3.
      destruct (dropped_lookup _ c3 ns (delete k d') Hdrop3
                  (lookup_insert_eq _ _ _)) as (d3 & E3 & Hsub3).
      rewrite (cache64_retrieve_data_closed now' self c3 ns k d3 E3).
      destruct (d3 !! k) as [x|] eqn:Ex; [|reflexivity].
      pose proof (lookup_weaken _ _ _ _ Ex Hsub3) as Hx.
      rewrite lookup_delete_eq in Hx. discriminate.
    + intros ->. reflexivity.
Qed.

(** Scenario A of the specification on the float clock, from C1:
    [ttl = 5], a reservation of [("cache", "key1")] at 1 700 000 000 s
    (deadline 1 700 000 005 s), read three seconds and six seconds later;
    and on [CacheKeyStorage], the read after three seconds with the record
    still held and with the record dropped by the backend. *)
Lemma C1_scenario_A_on_floats :
  (exists s1 s2,
      MemoryKeyStorage64.store_data (seconds 1700000000)
        (MemoryKeyStorage64.init 5) "cache" "key1" PyNone = Ok s1 /\
      MemoryKeyStorage64.retrieve_data (seconds 1700000003) s1 "cache" "key1"
        = Ok ((true, PyNone), s1) /\
      MemoryKeyStorage64.retrieve_data (seconds 1700000006) s1 "cache" "key1"
        = Ok ((false, PyNone), s2) /\
      MemoryKeyStorage64.retrieve_data (seconds 1700000007) s2 "cache" "key1"
        = Ok ((false, PyNone), s2))
  /\
  (exists c1,
      CacheKeyStorage64.store_data (seconds 1700000000)
        (CacheKeyStorage64.init 5) {["cache"%string := ∅]}
        "cache" "key1" PyNone = Ok c1 /\
      CacheKeyStorage64.retrieve_data (seconds 1700000003)
        (CacheKeyStorage64.init 5) c1 "cache" "key1"
      = Ok ((true, PyNone), c1) /\
      CacheKeyStorage64.retrieve_data (seconds 1700000003)
        (CacheKeyStorage64.init 5) (Django64.evict "cache" "key1" c1)
        "cache" "key1"
      = Ok ((false, PyNone), Django64.evict "cache" "key1" c1)).
Proof.
  assert (is_Some (({["cache"%string := ∅]} : Django64.registry)
                     !! "cache"%string)) as Hc by (by eexists).
  assert (Binary64.add_int (seconds 1700000000) 5
          = Ok (seconds 1700000005)) as Hd by (vm_compute; reflexivity).
  destruct (C1_reservation_reclaimed_at_rounded_deadline 5
              (seconds 1700000000) (seconds 1700000003) (seconds 1700000005)
              "cache" "key1" (MemoryKeyStorage64.init 5)
              {["cache"%string := ∅]} (reachable64_init 5) Hc Hd)
    as [(s1 & Hst & Hlive & _) (c1 & Hcst & Hrec & Hcache)].
  destruct (C1_reservation_reclaimed_at_rounded_deadline 5
              (seconds 1700000000) (seconds 1700000006) (seconds 1700000005)
              "cache" "key1" (MemoryKeyStorage64.init 5)
              {["cache"%string := ∅]} (reachable64_init 5) Hc Hd)
    as [(s1' & Hst' & _ & Hstale) _].
  rewrite Hst in Hst'. injection Hst' as <-.
  destruct (Hstale ltac:(vm_compute; reflexivity)) as (s2 & Hre & _ & Hagain).
  split.
  - exists s1, s2. split; [exact Hst|].
    split; [apply Hlive; vm_compute; reflexivity|].
    split; [exact Hre | apply Hagain].
  - exists c1. split; [exact Hcst|]. split.
    + destruct (Hcache c1 (dropped_refl c1)) as (_ & Hheld & _).
      apply Hheld; [exact Hrec | vm_compute; reflexivity].
    + destruct (Hcache (Django64.evict "cache" "key1" c1)
                  (dropped_evict c1 "cache" "key1")) as (_ & _ & _ & Hgone).
      apply Hgone. vm_compute in Hcst. injection Hcst as <-. reflexivity.
Defined.

(** * Further properties on the float clock *)

(** ** [MemoryKeyStorage]: the one exception *)

Lemma memory_step64_total o s f :
  all_dicts64 s ->
  Binary64.of_int (MemoryKeyStorage64.ttl s) = Ok f ->
  exists s', memory_step64 o s = Ok s'.
Proof.
  intros Hall Hf. destruct s as [T data]; simpl in Hf.
  destruct o as [now ns k v|now ns k|ns k]; simpl.
  - rewrite memory64_store_data_closed by exact Hall. eauto.
  - rewrite (memory64_retrieve_data_closed now _ ns k Hall); simpl.
    destruct (table_of64 data ns !! k) as [[resp t0]|]; simpl; [|eauto].
    unfold stale64; simpl. destruct (is_None resp); simpl.
    + rewrite (add_int_ok t0 T f Hf); simpl.
      destruct (Binary64.lt (Binary64.add t0 f) now); simpl; eauto.
    + eauto.
  - rewrite memory64_delete_data_closed by exact Hall. eauto.
Qed.

Lemma memory_step64_raises o s e :
  all_dicts64 s ->
  memory_step64 o s = Raise e ->
  e = OverflowError /\
  Binary64.of_int (MemoryKeyStorage64.ttl s) = Raise OverflowError.
Proof.
  intros Hall. destruct s as [T data].
  destruct o as [now ns k v|now ns k|ns k]; simpl.
  - rewrite memory64_store_data_closed by exact Hall. discriminate.
  - rewrite (memory64_retrieve_data_closed now _ ns k Hall); simpl.
    destruct (table_of64 data ns !! k) as [[resp t0]|]; simpl;
      [|discriminate].
    unfold stale64; simpl. destruct (is_None resp); simpl.
    + destruct (Binary64.add_int t0 T) as [dl|e'] eqn:Ea; simpl.
      * destruct (Binary64.lt dl now); discriminate.
      * intros [= <-]. by apply (add_int_raises t0 T).
    + discriminate.
  - rewrite memory64_delete_data_closed by exact Hall. discriminate.
Qed.

(** X1. What a [MemoryKeyStorage(T)] can raise. In whatever state earlier
    calls left it, a sequence of [store_data], [retrieve_data] and
    [delete_data] calls, with any arguments and clock readings, runs to its
    end without raising as soon as the int [T] converts to a float. If a
    call of the sequence does raise, the exception is [OverflowError] and
    [T] is an int too large to convert: it is the sum [mtime + self.ttl],
    formed when a reservation is read. No [KeyError], [TypeError] or
    anything else ever comes out of the dict handling. *)
Theorem memory_calls_raise_only_overflow
    (T : Z) (ops : list op64) (s : MemoryKeyStorage64.t)
    (Hs : reachable64 T s) :
  (forall f, Binary64.of_int T = Ok f ->
     exists s', run64 ops s = Ok s' /\ reachable64 T s') /\
  (forall e, run64 ops s = Raise e ->
     e = OverflowError /\ Binary64.of_int T = Raise OverflowError).
Proof.
  revert s Hs. induction ops as [|o ops IH]; intros s Hs; simpl.
  - split; [eauto | discriminate].
  - destruct (reachable64_inv T s Hs) as [HT Hall].
    destruct (memory_step64 o s) as [s1|e1] eqn:Hstep; simpl.
    + assert (reachable64 T s1) as Hs1
        by (eapply reachable64_step; eassumption).
      exact (IH s1 Hs1).
    + destruct (memory_step64_raises o s e1 Hall Hstep) as [-> Hov].
      rewrite HT in Hov. split.
      * intros f Hf. rewrite Hf in Hov. discriminate.
      * by intros e [= <-].
Qed.

(** X1 with [ttl = 5]: a reservation of a completed key, a double delete
    and reads of unknown names all return. With [ttl = 2^1024], reading a
    reservation raises [OverflowError]. *)
Lemma memory_calls_raise_only_overflow_example :
  (exists s',
      run64
        [StoreData64 (seconds 10) "cache" "key1" (HttpResponse 201 "");
         StoreData64 (seconds 11) "cache" "key1" PyNone;
         RetrieveData64 (seconds 12) "cache" "key1";
         DeleteData64 "cache" "key1";
         DeleteData64 "cache" "key1";
         RetrieveData64 (seconds 13) "" ""] (MemoryKeyStorage64.init 5)
      = Ok s') /\
  run64
    [StoreData64 (seconds 11) "cache" "key1" PyNone;
     RetrieveData64 (seconds 12) "cache" "key1"]
    (MemoryKeyStorage64.init (2 ^ 1024))
  = Raise OverflowError.
Proof.
  split.
  - destruct (memory_calls_raise_only_overflow 5
                [StoreData64 (seconds 10) "cache" "key1" (HttpResponse 201 "");
                 StoreData64 (seconds 11) "cache" "key1" PyNone;
                 RetrieveData64 (seconds 12) "cache" "key1";
                 DeleteData64 "cache" "key1";
                 DeleteData64 "cache" "key1";
                 RetrieveData64 (seconds 13) "" ""]
                (MemoryKeyStorage64.init 5) (reachable64_init 5))
      as [Hok _].
    destruct (Hok (seconds 5) ltac:(vm_compute; reflexivity)) as (s' & Hrun & _).
    exists s'. exact Hrun.
  - destruct (run64
                [StoreData64 (seconds 11) "cache" "key1" PyNone;
                 RetrieveData64 (seconds 12) "cache" "key1"]
                (MemoryKeyStorage64.init (2 ^ 1024))) as [s'|e] eqn:Hrun.
    + vm_compute in Hrun. discriminate.
    + destruct (memory_calls_raise_only_overflow (2 ^ 1024)
                  [StoreData64 (seconds 11) "cache" "key1" PyNone;
                   RetrieveData64 (seconds 12) "cache" "key1"]
                  (MemoryKeyStorage64.init (2 ^ 1024))
                  (reachable64_init (2 ^ 1024))) as [_ Hraise].
      destruct (Hraise e Hrun) as [-> _]. reflexivity.
Defined.

(** ** The answers of [retrieve_data] *)

Lemma memory64_retrieve_data_returned now s ns k :
  all_dicts64 s ->
  returned (MemoryKeyStorage64.retrieve_data now s ns k)
  = answer64 now (MemoryKeyStorage64.ttl s)
      (MemoryKeyStorage64.record_at s ns k).
Proof.
  intros Hall.
  rewrite (memory64_retrieve_data_closed now s ns k Hall),
    record_at64_table_of.
  unfold returned, answer64; simpl.
  destruct (table_of64 _ ns !! k) as [c|]; [|reflexivity].
  destruct (stale64 now (MemoryKeyStorage64.ttl s) c) as [[|]|e];
    reflexivity.
Qed.

Lemma cache64_retrieve_data_returned now self (caches : Django64.registry)
    ns k :
  is_Some (caches !! ns) ->
  returned (CacheKeyStorage64.retrieve_data now self caches ns k)
  = answer64 now (CacheKeyStorage64.ttl self)
      (CacheKeyStorage64.record_at caches ns k).
Proof.
  intros [d E].
  rewrite (cache64_retrieve_data_closed now self caches ns k d E).
  unfold CacheKeyStorage64.record_at, returned, answer64. rewrite E.
  destruct (d !! k) as [c|]; [|reflexivity].
  destruct (stale64 now (CacheKeyStorage64.ttl self) c) as [[|]|e];
    reflexivity.
Qed.

Lemma answer64_outcomes now T (r : option record64) :
  (answer64 now T r = Ok (false, PyNone) <->
   r = None \/
   exists t0 d, r = Some (CachedHttpResponse64.mk PyNone t0) /\
                Binary64.add_int t0 T = Ok d /\ Binary64.lt d now = true) /\
  (answer64 now T r = Ok (true, PyNone) <->
   exists t0 d, r = Some (CachedHttpResponse64.mk PyNone t0) /\
                Binary64.add_int t0 T = Ok d /\ Binary64.lt d now = false) /\
  (forall R, R <> PyNone ->
     (answer64 now T r = Ok (true, R) <->
      exists t0, r = Some (CachedHttpResponse64.mk R t0))) /\
  (forall e,
     answer64 now T r = Raise e <->
     e = OverflowError /\
     exists t0, r = Some (CachedHttpResponse64.mk PyNone t0) /\
                Binary64.add_int t0 T = Raise OverflowError).
Proof.
  unfold answer64, stale64; simpl.
  destruct r as [[resp t0]|]; simpl.
  - destruct resp as [|code body|repr]; simpl.
    + destruct (Binary64.add_int t0 T) as [d|e0] eqn:Ea; simpl.
      * destruct (Binary64.lt d now) eqn:El; simpl.
        -- split; [split; [intros _; right; eauto | done]|].
           split; [split; [discriminate
                          | intros (t & d' & [= <-] & Hd & Hl); congruence]|].
           split; [intros R HR; split;
                   [discriminate | intros (t & [= <- _]); done]|].
           intros e. split; [discriminate
                            | intros (_ & t & [= <-] & Hr); congruence].
        -- split; [split; [discriminate
                          | intros [|(t & d' & [= <-] & Hd & Hl)];
                            [done | congruence]]|].
           split; [split; [intros _; eauto | done]|].
           split; [intros R HR; split;
                   [intros [= <-]; done | intros (t & [= <- _]); done]|].
           intros e. split; [discriminate
                            | intros (_ & t & [= <-] & Hr); congruence].
      * destruct (add_int_raises t0 T e0 Ea) as [-> _].
        split; [split; [discriminate
                       | intros [|(t & d' & [= <-] & Hd & Hl)];
                         [done | congruence]]|].
        split; [split; [discriminate
                       | intros (t & d' & [= <-] & Hd & Hl); congruence]|].
        split; [intros R HR; split;
                [discriminate | intros (t & [= <- _]); done]|].
        intros e. split; [intros [= <-]; eauto | by intros (-> & _)].
    + split; [split; [discriminate | intros [|(t & d & ? & _)]; done]|].
      split; [split; [discriminate | intros (t & d & ? & _); done]|].
      split; [intros R HR; split;
              [intros [= <-]; eauto | intros (t & [= <- _]); done]|].
      intros e. split; [discriminate | intros (_ & t & ? & _); done].
    + split; [split; [discriminate | intros [|(t & d & ? & _)]; done]|].
      split; [split; [discriminate | intros (t & d & ? & _); done]|].
      split; [intros R HR; split;
              [intros [= <-]; eauto | intros (t & [= <- _]); done]|].
      intros e. split; [discriminate | intros (_ & t & ? & _); done].
  - split; [split; [intros _; by left | done]|].
    split; [split; [discriminate | intros (t & d & ? & _); done]|].
    split; [intros R HR; split; [discriminate | intros (t & ?); done]|].
    intros e. split; [discriminate | intros (_ & t & ? & _); done].
Qed.

(** X3. What [retrieve_data(ns, k)] tells its caller when the clock reads
    [now], for both backends with [ttl = T], in terms of the record held
    under [(ns, k)] and of the float [d] that [mtime + T] evaluates to. It
    returns [(False, None)] exactly when there is no record, or a
    reservation with [d < now]; [(True, None)] exactly when there is a
    reservation with [d < now] false; [(True, R)] with [R] not [None]
    exactly when the record holds the completed response [R]; and it raises
    exactly when there is a reservation and the sum raises, the exception
    being [OverflowError]. [MemoryKeyStorage] in any state;
    [CacheKeyStorage] on a configured cache that the backend leaves alone
    while the call runs. *)
Theorem retrieve_data_outcomes_on_floats
    (T : Z) (now : spec_float) (ns k : string)
    (s : MemoryKeyStorage64.t) (caches : Django64.registry)
    (Hs : reachable64 T s)
    (Hc : is_Some (caches !! ns)) :
  (let out := returned (MemoryKeyStorage64.retrieve_data now s ns k) in
   let r := MemoryKeyStorage64.record_at s ns k in
   (out = Ok (false, PyNone) <->
    r = None \/
    exists t0 d, r = Some (CachedHttpResponse64.mk PyNone t0) /\
                 Binary64.add_int t0 T = Ok d /\ Binary64.lt d now = true) /\
   (out = Ok (true, PyNone) <->
    exists t0 d, r = Some (CachedHttpResponse64.mk PyNone t0) /\
                 Binary64.add_int t0 T = Ok d /\ Binary64.lt d now = false) /\
   (forall R, R <> PyNone ->
      (out = Ok (true, R) <->
       exists t0, r = Some (CachedHttpResponse64.mk R t0))) /\
   (forall e,
      out = Raise e <->
      e = OverflowError /\
      exists t0, r = Some (CachedHttpResponse64.mk PyNone t0) /\
                 Binary64.add_int t0 T = Raise OverflowError))
  /\
  (let out := returned (CacheKeyStorage64.retrieve_data now
                          (CacheKeyStorage64.init T) caches ns k) in
   let r := CacheKeyStorage64.record_at caches ns k in
   (out = Ok (false, PyNone) <->
    r = None \/
    exists t0 d, r = Some (CachedHttpResponse64.mk PyNone t0) /\
                 Binary64.add_int t0 T = Ok d /\ Binary64.lt d now = true) /\
   (out = Ok (true, PyNone) <->
    exists t0 d, r = Some (CachedHttpResponse64.mk PyNone t0) /\
                 Binary64.add_int t0 T = Ok d /\ Binary64.lt d now = false) /\
   (forall R, R <> PyNone ->
      (out = Ok (true, R) <->
       exists t0, r = Some (CachedHttpResponse64.mk R t0))) /\
   (forall e,
      out = Raise e <->
      e = OverflowError /\
      exists t0, r = Some (CachedHttpResponse64.mk PyNone t0) /\
                 Binary64.add_int t0 T = Raise OverflowError)).
Proof.
  destruct (reachable64_inv T s Hs) as [HT Hall]. split.
  - intros out r. unfold out, r.
    rewrite (memory64_retrieve_data_returned now s ns k Hall), HT.
    apply answer64_outcomes.
  - intros out r. unfold out, r.
    rewrite (cache64_retrieve_data_returned now _ caches ns k Hc).
    apply answer64_outcomes.
Qed.

(** X3 at the 2038 reading of C1's counterexample: the reservation is in
    flight there because the rounded sum is not less than the clock. *)
Lemma retrieve_data_outcomes_on_floats_example :
  exists s1,
    MemoryKeyStorage64.store_data last_before_2038
      (MemoryKeyStorage64.init 1) "cache" "key1" PyNone = Ok s1 /\
    returned (MemoryKeyStorage64.retrieve_data (seconds (2 ^ 31 + 1)) s1
                "cache" "key1") = Ok (true, PyNone).
Proof.
  eexists. split; [reflexivity|].
  assert (is_Some (({["cache"%string := ∅]} : Django64.registry)
                     !! "cache"%string)) as Hc by (by eexists).
  assert (reachable64 1
            (MemoryKeyStorage64.mk 1
               {["cache"%string :=
                   MemoryKeyStorage64.SlotDict
                     {["key1"%string :=
                         CachedHttpResponse64.mk PyNone last_before_2038]}]}))
    as Hs.
  { apply (reachable64_step 1
             (StoreData64 last_before_2038 "cache" "key1" PyNone)
             (MemoryKeyStorage64.init 1) _ (reachable64_init 1)).
    reflexivity. }
  destruct (retrieve_data_outcomes_on_floats 1 (seconds (2 ^ 31 + 1))
              "cache" "key1" _ _ Hs Hc) as [(_ & Hlive & _) _].
  apply Hlive. exists last_before_2038, (seconds (2 ^ 31 + 1)).
  split; [reflexivity|]. split; vm_compute; reflexivity.
Defined.

(** ** Namespaces, for every method of [MemoryKeyStorage] *)

(** X14. No call on a [MemoryKeyStorage] reaches into another namespace.
    Whatever the state, a [store_data], [retrieve_data] or [delete_data] on
    the namespace [ns1] that returns leaves the table bound to every other
    namespace [ns2] exactly as it was: also a read that creates the table
    of [ns1], and a read that reclaims a stale reservation of [ns1]. *)
Theorem memory_calls_leave_other_namespaces
    (o : op64) (ns2 : string) (s s' : MemoryKeyStorage64.t)
    (Hstep : memory_step64 o s = Ok s')
    (Hne : op64_cache_name o <> ns2) :
  MemoryKeyStorage64.idempotency_key_cache_data s' !! ns2
  = MemoryKeyStorage64.idempotency_key_cache_data s !! ns2.
Proof.
  destruct s as [T data].
  destruct o as [now ns k v|now ns k|ns k]; simpl in *.
  - unfold MemoryKeyStorage64.store_data,
      MemoryKeyStorage64.defaultdict_getitem in Hstep; simpl in Hstep.
    destruct (data !! ns) as [[|d]|]; [discriminate| |];
      injection Hstep as <-; simpl; by rewrite !lookup_insert_ne.
  - unfold MemoryKeyStorage64.retrieve_data,
      MemoryKeyStorage64.defaultdict_getitem in Hstep; simpl in Hstep.
    destruct (data !! ns) as [[|d]|]; simpl in Hstep.
    + injection Hstep as <-. reflexivity.
    + unfold PyDict.contains, PyDict.getitem, PyDict.delitem in Hstep.
      destruct (d !! k) as [[resp t0]|]; simpl in Hstep.
      * destruct (is_None resp); simpl in Hstep.
        -- destruct (Binary64.add_int t0 T) as [dl|e]; simpl in Hstep;
             [|discriminate].
           destruct (Binary64.lt dl now); simpl in Hstep;
             injection Hstep as <-; simpl;
             [by rewrite lookup_insert_ne | reflexivity].
        -- injection Hstep as <-. reflexivity.
      * injection Hstep as <-. reflexivity.
    + unfold PyDict.contains in Hstep. rewrite lookup_empty in Hstep.
      simpl in Hstep.
      injection Hstep as <-. simpl. by rewrite lookup_insert_ne.
  - unfold MemoryKeyStorage64.delete_data,
      MemoryKeyStorage64.defaultdict_getitem in Hstep; simpl in Hstep.
    destruct (data !! ns) as [[|d]|]; simpl in Hstep.
    + injection Hstep as <-. reflexivity.
    + unfold PyDict.contains, PyDict.delitem in Hstep.
      destruct (d !! k) as [c|]; simpl in Hstep.
      * destruct (PyDict.truthy d); simpl in Hstep;
          injection Hstep as <-; simpl;
          [by rewrite lookup_insert_ne | reflexivity].
      * rewrite andb_false_r in Hstep. injection Hstep as <-. reflexivity.
    + unfold PyDict.contains in Hstep.
      rewrite lookup_empty, andb_false_r in Hstep.
      injection Hstep as <-. simpl. by rewrite lookup_insert_ne.
Qed.

(** X14 on a store with a completed record in ["cache"] and a stale
    reservation in ["other"]: the read that reclaims the reservation leaves
    the table of ["cache"] as it was. *)
Lemma memory_calls_leave_other_namespaces_example :
  exists s s',
    run64 [StoreData64 (seconds 0) "cache" "key1" (HttpResponse 201 "");
           StoreData64 (seconds 0) "other" "key1" PyNone]
      (MemoryKeyStorage64.init 5) = Ok s /\
    memory_step64 (RetrieveData64 (seconds 9) "other" "key1") s = Ok s' /\
    MemoryKeyStorage64.record_at s' "other" "key1" = None /\
    MemoryKeyStorage64.idempotency_key_cache_data s' !! "cache"%string
    = MemoryKeyStorage64.idempotency_key_cache_data s !! "cache"%string.
Proof.
  eexists _, _. split; [reflexivity|].
  assert (memory_step64 (RetrieveData64 (seconds 9) "other" "key1")
            (MemoryKeyStorage64.mk 5
               (<["other"%string :=
                    MemoryKeyStorage64.SlotDict
                      {["key1"%string :=
                          CachedHttpResponse64.mk PyNone (seconds 0)]}]>
                  {["cache"%string :=
                      MemoryKeyStorage64.SlotDict
                        {["key1"%string :=
                            CachedHttpResponse64.mk (HttpResponse 201 "")
                              (seconds 0)]}]}))
          = Ok (MemoryKeyStorage64.mk 5
                  (<["other"%string := MemoryKeyStorage64.SlotDict ∅]>
                     {["cache"%string :=
                         MemoryKeyStorage64.SlotDict
                           {["key1"%string :=
                               CachedHttpResponse64.mk (HttpResponse 201 "")
                                 (seconds 0)]}]}))) as Hstep
    by (vm_compute; reflexivity).
  split; [exact Hstep|]. split; [reflexivity|].
  apply (memory_calls_leave_other_namespaces _ "cache" _ _ Hstep).
  simpl. discriminate.
Defined.

(** ** [CacheKeyStorage]: whose [ttl] *)

(** X16. In [CacheKeyStorage] the [ttl] that counts is the reader's. A
    reservation written at [t0] through a storage object of any [ttl], even
    one too large to convert to a float, is stored without the sum ever
    being formed. As long as the backend holds the record, a storage object
    with [ttl = Tr] reports it in flight at every clock reading [now] for
    which [t0 + Tr], as the floats evaluate it, is not less than [now], and
    reclaims it at every other reading. *)
Theorem cache_deadline_is_the_readers
    (Tw Tr : Z) (t0 now deadline : spec_float) (ns k : string)
    (caches : Django64.registry)
    (Hc : is_Some (caches !! ns))
    (Hd : Binary64.add_int t0 Tr = Ok deadline) :
  let writer := CacheKeyStorage64.init Tw in
  let reader := CacheKeyStorage64.init Tr in
  let reservation := CachedHttpResponse64.mk PyNone t0 in
  exists c1,
    CacheKeyStorage64.store_data t0 writer caches ns k PyNone = Ok c1 /\
    forall c,
      Django64.dropped c1 c ->
      CacheKeyStorage64.record_at c ns k = Some reservation ->
      (Binary64.lt deadline now = false ->
       CacheKeyStorage64.retrieve_data now reader c ns k
       = Ok ((true, PyNone), c)) /\
      (Binary64.lt deadline now = true ->
       exists c2,
         CacheKeyStorage64.retrieve_data now reader c ns k
         = Ok ((false, PyNone), c2) /\
         CacheKeyStorage64.record_at c2 ns k = None).
Proof.
  intros writer reader reservation. destruct Hc as [d E].
  rewrite (cache64_store_data_closed t0 writer caches ns k PyNone d E).
  eexists. split; [reflexivity|].
  intros c Hdrop Hrec.
  destruct (dropped_lookup _ c ns _ Hdrop (lookup_insert_eq _ _ _))
    as (d' & E' & _).
  unfold CacheKeyStorage64.record_at in *. rewrite E' in Hrec.
  rewrite (cache64_retrieve_data_closed now reader c ns k d' E'), Hrec.
  unfold reservation. rewrite stale64_reservation. simpl. rewrite Hd. simpl.
  split.
  - by intros ->.
  - intros ->. eexists. split; [reflexivity|].
    rewrite lookup_insert_eq. apply lookup_delete_eq.
Qed.

(** X16 with a writer of [ttl = 2^1024] and a reader of [ttl = 5], ten
    seconds after the reservation: the reader reclaims it. *)
Lemma cache_deadline_is_the_readers_example :
  exists c1 c2,
    CacheKeyStorage64.store_data (seconds 1700000000)
      (CacheKeyStorage64.init (2 ^ 1024)) {["cache"%string := ∅]}
      "cache" "key2" PyNone = Ok c1 /\
    CacheKeyStorage64.retrieve_data (seconds 1700000010)
      (CacheKeyStorage64.init 5) c1 "cache" "key2"
    = Ok ((false, PyNone), c2).
Proof.
  assert (is_Some (({["cache"%string := ∅]} : Django64.registry)
                     !! "cache"%string)) as Hc by (by eexists).
  assert (Binary64.add_int (seconds 1700000000) 5
          = Ok (seconds 1700000005)) as Hd by (vm_compute; reflexivity).
  destruct (cache_deadline_is_the_readers (2 ^ 1024) 5 (seconds 1700000000)
              (seconds 1700000010) (seconds 1700000005) "cache" "key2"
              {["cache"%string := ∅]} Hc Hd) as (c1 & Hst & Hread).
  assert (Django64.dropped c1 c1) as Hsame.
  { intros alias. destruct (c1 !! alias); done. }
  assert (CacheKeyStorage64.record_at c1 "cache" "key2"
          = Some (CachedHttpResponse64.mk PyNone (seconds 1700000000)))
    as Hrec.
  { vm_compute in Hst. injection Hst as <-. reflexivity. }
  destruct (Hread c1 Hsame Hrec) as [_ Hstale].
  destruct (Hstale ltac:(vm_compute; reflexivity)) as (c2 & Hre & _).
  exists c1, c2. split; [exact Hst | exact Hre].
Defined.

(** ** Reads do not refresh a reservation *)

Lemma stale64_total now T c f :
  Binary64.of_int T = Ok f -> exists b, stale64 now T c = Ok b.
Proof.
  intros Hf. unfold stale64; simpl.
  destruct (is_None (CachedHttpResponse64._response c)); [|eauto].
  rewrite (add_int_ok _ T f Hf). simpl. eauto.
Qed.

Lemma memory_step64_keeps o s ns k c f :
  all_dicts64 s ->
  Binary64.of_int (MemoryKeyStorage64.ttl s) = Ok f ->
  MemoryKeyStorage64.record_at s ns k = Some c ->
  match o with
  | RetrieveData64 now' ns' k' =>
      ns' = ns /\ k' = k ->
      stale64 now' (MemoryKeyStorage64.ttl s) c = Ok false
  | _ => ~ writes_to64 ns k o
  end ->
  exists s',
    memory_step64 o s = Ok s' /\
    MemoryKeyStorage64.record_at s' ns k = Some c.
Proof.
  intros Hall Hf Hrec Ho. rewrite record_at64_table_of in Hrec.
  destruct s as [T data]; simpl in *.
  destruct o as [now' ns' k' v|now' ns' k'|ns' k']; simpl in *.
  - rewrite memory64_store_data_closed by exact Hall.
    eexists. split; [reflexivity|].
    rewrite record_at64_table_of; simpl.
    destruct (decide (ns' = ns)) as [->|Hne].
    + rewrite table_of64_insert_eq, lookup_insert_ne; [exact Hrec|].
      intros ->. by apply Ho.
    + by rewrite table_of64_insert_ne.
  - rewrite (memory64_retrieve_data_closed now' _ ns' k' Hall); simpl.
    destruct (table_of64 data ns' !! k') as [c'|] eqn:Ek'; simpl.
    + destruct (stale64_total now' T c' f Hf) as [b Hb].
      rewrite Hb; simpl. destruct b; simpl.
      * eexists. split; [reflexivity|].
        rewrite record_at64_table_of; simpl.
        destruct (decide (ns' = ns)) as [->|Hne].
        -- rewrite table_of64_insert_eq.
           destruct (decide (k' = k)) as [->|Hk].
           ++ rewrite Hrec in Ek'. injection Ek' as <-.
              rewrite Ho in Hb by done. discriminate.
           ++ by rewrite lookup_delete_ne.
        -- by rewrite table_of64_insert_ne.
      * eexists. split; [reflexivity|].
        rewrite record_at64_table_of; simpl.
        destruct (decide (ns' = ns)) as [->|Hne].
        -- by rewrite table_of64_insert_eq.
        -- by rewrite table_of64_insert_ne.
    + eexists. split; [reflexivity|].
      rewrite record_at64_table_of; simpl.
      destruct (decide (ns' = ns)) as [->|Hne].
      * by rewrite table_of64_insert_eq.
      * by rewrite table_of64_insert_ne.
  - rewrite memory64_delete_data_closed by exact Hall.
    eexists. split; [reflexivity|].
    rewrite record_at64_table_of; simpl.
    destruct (decide (ns' = ns)) as [->|Hne].
    + rewrite table_of64_insert_eq, lookup_delete_ne; [exact Hrec|].
      intros ->. by apply Ho.
    + by rewrite table_of64_insert_ne.
Qed.

Lemma polling64_from (T : Z) (t0 now deadline : spec_float) (ns k : string)
    (ops : list op64) :
  Binary64.add_int t0 T = Ok deadline ->
  Forall (fun o => match o with
                   | RetrieveData64 now' ns' k' =>
                       ns' = ns /\ k' = k ->
                       Binary64.lt deadline now' = false
                   | _ => ~ writes_to64 ns k o
                   end) ops ->
  Binary64.lt deadline now = true ->
  forall s1,
    all_dicts64 s1 ->
    MemoryKeyStorage64.ttl s1 = T ->
    MemoryKeyStorage64.record_at s1 ns k
      = Some (CachedHttpResponse64.mk PyNone t0) ->
    exists s2 s3,
      run64 ops s1 = Ok s2 /\
      MemoryKeyStorage64.record_at s2 ns k
        = Some (CachedHttpResponse64.mk PyNone t0) /\
      MemoryKeyStorage64.retrieve_data now s2 ns k
        = Ok ((false, PyNone), s3) /\
      MemoryKeyStorage64.record_at s3 ns k = None.
Proof.
  intros Hd Hops Hnow.
  destruct (add_int_ok_inv t0 T deadline Hd) as [f Hf].
  induction ops as [|o ops IH]; intros s1 Hall1 HT1 Hr1.
  - exists s1. simpl.
    rewrite (memory64_retrieve_data_closed now s1 ns k Hall1).
    pose proof Hr1 as Hr1'. rewrite record_at64_table_of in Hr1'.
    simpl. rewrite Hr1'.
    rewrite stale64_reservation, HT1, Hd. simpl. rewrite Hnow.
    eexists. split; [reflexivity|]. split; [exact Hr1|].
    split; [reflexivity|].
    rewrite record_at64_table_of; simpl.
    by rewrite table_of64_insert_eq, lookup_delete_eq.
  - apply Forall_cons in Hops as [Ho Hrest].
    destruct (memory_step64_keeps o s1 ns k
                (CachedHttpResponse64.mk PyNone t0) f Hall1)
      as (s1' & Hstep & Hr1'); [by rewrite HT1 | exact Hr1 | |].
    { destruct o as [now' ns' k' v|now' ns' k'|ns' k']; try exact Ho.
      intros Hsame. rewrite stale64_reservation, HT1, Hd. simpl.
      by rewrite (Ho Hsame). }
    destruct (memory_step64_inv o s1 s1' Hall1 Hstep) as [Hall1' HT1'].
    destruct (IH Hrest s1' Hall1') as (s2 & s3 & Hrun & Hrest');
      [congruence | exact Hr1' |].
    exists s2, s3. simpl. rewrite Hstep. simpl.
    split; [exact Hrun | exact Hrest'].
Qed.

(** X17. Polling does not keep a key locked. After a reservation of
    [(ns, k)] at [t0] in a [MemoryKeyStorage] with [ttl = T], with
    [deadline] the float that [t0 + T] evaluates to, let any calls follow
    that do not store to or delete [(ns, k)] and whose reads of [(ns, k)]
    come at clock readings [now'] with [deadline < now'] false. They all
    return, the record still carries the timestamp [t0], and a
    [retrieve_data(ns, k)] at a reading with [deadline < now] reclaims it,
    however recent the last read was. *)
Theorem reads_do_not_refresh_reservation_on_floats
    (T : Z) (t0 now deadline : spec_float) (ns k : string) (ops : list op64)
    (s : MemoryKeyStorage64.t)
    (Hs : reachable64 T s)
    (Hd : Binary64.add_int t0 T = Ok deadline)
    (Hops : Forall (fun o => match o with
                             | RetrieveData64 now' ns' k' =>
                                 ns' = ns /\ k' = k ->
                                 Binary64.lt deadline now' = false
                             | _ => ~ writes_to64 ns k o
                             end) ops)
    (Hnow : Binary64.lt deadline now = true) :
  exists s1 s2 s3,
    MemoryKeyStorage64.store_data t0 s ns k PyNone = Ok s1 /\
    run64 ops s1 = Ok s2 /\
    MemoryKeyStorage64.record_at s2 ns k
      = Some (CachedHttpResponse64.mk PyNone t0) /\
    MemoryKeyStorage64.retrieve_data now s2 ns k
      = Ok ((false, PyNone), s3) /\
    MemoryKeyStorage64.record_at s3 ns k = None.
Proof.
  destruct (reachable64_inv T s Hs) as [HT Hall].
  rewrite (memory64_store_data_closed t0 s ns k PyNone Hall).
  eexists. 
  destruct (polling64_from T t0 now deadline ns k ops Hd Hops Hnow
              (MemoryKeyStorage64.mk (MemoryKeyStorage64.ttl s)
                 (<[ns := MemoryKeyStorage64.SlotDict
                            (<[k := CachedHttpResponse64.init t0 PyNone]>
                               (table_of64
                                  (MemoryKeyStorage64.idempotency_key_cache_data s)
                                  ns))]>
                    (MemoryKeyStorage64.idempotency_key_cache_data s))))
    as (s2 & s3 & Hrest).
  - destruct s. by apply all_dicts64_insert.
  - exact HT.
  - rewrite record_at64_table_of; simpl.
    by rewrite table_of64_insert_eq, lookup_insert_eq.
  - exists s2, s3. split; [reflexivity | exact Hrest].
Qed.

(** X17 with [ttl = 5]: reserved at 1 700 000 000 s, polled four and five
    seconds later, with a write to another key in between, and reclaimed
    after six seconds. *)
Lemma reads_do_not_refresh_reservation_on_floats_example :
  exists s1 s2 s3,
    MemoryKeyStorage64.store_data (seconds 1700000000)
      (MemoryKeyStorage64.init 5) "cache" "key1" PyNone = Ok s1 /\
    run64
      [RetrieveData64 (seconds 1700000004) "cache" "key1";
       StoreData64 (seconds 1700000004) "cache" "key2" PyNone;
       RetrieveData64 (seconds 1700000005) "cache" "key1"] s1 = Ok s2 /\
    MemoryKeyStorage64.retrieve_data (seconds 1700000006) s2 "cache" "key1"
      = Ok ((false, PyNone), s3).
Proof.
  destruct (reads_do_not_refresh_reservation_on_floats 5
              (seconds 1700000000) (seconds 1700000006) (seconds 1700000005)
              "cache" "key1"
              [RetrieveData64 (seconds 1700000004) "cache" "key1";
               StoreData64 (seconds 1700000004) "cache" "key2" PyNone;
               RetrieveData64 (seconds 1700000005) "cache" "key1"]
              (MemoryKeyStorage64.init 5) (reachable64_init 5))
    as (s1 & s2 & s3 & Hst & Hrun & _ & Hre & _).
  - vm_compute; reflexivity.
  - apply Forall_cons_2; [intros _; vm_compute; reflexivity|].
    apply Forall_cons_2; [simpl; intuition discriminate|].
    apply Forall_cons_2; [intros _; vm_compute; reflexivity|].
    apply Forall_nil_2.
  - vm_compute; reflexivity.
  - exists s1, s2, s3. auto.
Defined.

(** ** [CacheKeyStorage]: a cache name that is not configured *)

(** X11. On a cache name that is not among the configured caches, each of
    [store_data], [retrieve_data] and [delete_data] of [CacheKeyStorage]
    raises [InvalidCacheBackendError] for that name, as [validate_storage]
    does, whatever the key, the response and the clock reading: the
    registry lookup comes first in all of them, so no key is looked at and
    nothing is written. *)
Theorem cache_unconfigured_name_raises
    (now : Z) (self : CacheKeyStorage.t) (caches : Django.registry)
    (ns k : string) (v : pyobject)
    (Hmiss : caches !! ns = None) :
  CacheKeyStorage.validate_storage caches ns
    = Raise (InvalidCacheBackendError ns) /\
  CacheKeyStorage.store_data now self caches ns k v
    = Raise (InvalidCacheBackendError ns) /\
  CacheKeyStorage.retrieve_data now self caches ns k
    = Raise (InvalidCacheBackendError ns) /\
  CacheKeyStorage.delete_data self caches ns k
    = Raise (InvalidCacheBackendError ns).
Proof.
  destruct (cache_unconfigured now self caches ns k v Hmiss)
    as (H1 & H2 & H3 & H4).
  auto.
Qed.

(** X11 on a misspelt cache name. *)
Lemma cache_unconfigured_name_raises_example :
  CacheKeyStorage.store_data 0 (CacheKeyStorage.init 5) completed_registry
    "cahce" "key1" PyNone = Raise (InvalidCacheBackendError "cahce") /\
  CacheKeyStorage.retrieve_data 0 (CacheKeyStorage.init 5) completed_registry
    "cahce" "key1" = Raise (InvalidCacheBackendError "cahce") /\
  CacheKeyStorage.delete_data (CacheKeyStorage.init 5) completed_registry
    "cahce" "key1" = Raise (InvalidCacheBackendError "cahce").
Proof.
  apply (cache_unconfigured_name_raises 0 (CacheKeyStorage.init 5)
           completed_registry "cahce" "key1" PyNone).
  reflexivity.
Defined.
